(** * pyright-pretty: the diagnostic formatter and the context loader

    A shallow embedding of the TypeScript source of the command line tool
    (the module that exports [PyrightError] and [Pyright]) and the
    properties of its specification.

    Conventions of the embedding.
    - A JavaScript string is the list of its UTF-16 code units, so that
      [length], [substring], [repeat], [padStart], [split] and [trim] count
      what the engine counts.
    - A JavaScript number that holds a line, a column or a count is an
      integer of [Z]; subtraction may leave the non-negative range, as it
      does in the source.
    - A call that may throw returns a [Completion]; asynchronous code runs
      in the [Async] monad, over a snapshot of the outside world (the files
      on disk, the external checker) and a trace of the operations issued.
    - The colour functions of [kleur] are an interface, [Kleur]; the
      theorems hold for every implementation of it. *)

From Stdlib Require Import List ZArith NArith Lia Bool String Ascii.
From Stdlib Require Import DecimalString.
Import ListNotations.

Local Open Scope Z_scope.

(** ** JavaScript strings *)

Module Js.

Definition jsstring := list N.

(** An ASCII literal of the source, as code units. *)
Definition lit (s : string) : jsstring :=
  map N_of_ascii (list_ascii_of_string s).

Definition SPACE : N := 32%N.
Definition CARET : N := 94%N.
Definition LF : N := 10%N.
(** U+2502, the box-drawing vertical bar of the gutter. *)
Definition BAR : N := 9474%N.
(** U+2192, the arrow in front of the rule name. *)
Definition ARROW : N := 8594%N.

Fixpoint eqb (a b : jsstring) : bool :=
  match a, b with
  | [], [] => true
  | x :: a', y :: b' => N.eqb x y && eqb a' b'
  | _, _ => false
  end.

(** Truthiness of a string: only the empty string is falsy. *)
Definition truthy (s : jsstring) : bool :=
  match s with [] => false | _ :: _ => true end.

Definition length (s : jsstring) : Z := Z.of_nat (List.length s).

(** What a throwing call throws. *)
Inductive JsError : Type :=
| RangeError (msg : jsstring)
| SyntaxError (msg : jsstring)
| Error (msg : jsstring).

Inductive Completion (A : Type) : Type :=
| Normal (a : A)
| Throw (e : JsError).
Arguments Normal {A} a.
Arguments Throw {A} e.

(** Sequencing: the rest runs on the value of a normal completion, an
    exception passes through. *)
Definition andThen {A B : Type} (c : Completion A)
    (k : A -> Completion B) : Completion B :=
  match c with
  | Normal a => k a
  | Throw e => Throw e
  end.

(** [String.prototype.repeat]: a negative count is a RangeError.  Strings
    have no maximal length here: the RangeError of a result longer than
    the engine allows (some 2^29 code units) is not part of the model. *)
Definition repeat (s : jsstring) (count : Z) : Completion jsstring :=
  if count <? 0
  then Throw (RangeError (lit "Invalid count value: " ++
                          lit (NilZero.string_of_int (Z.to_int count))))
  else Normal (List.concat (List.repeat s (Z.to_nat count))).

(** Template interpolation of an integer: its decimal numeral. *)
Definition ofNumber (n : Z) : jsstring :=
  lit (NilZero.string_of_int (Z.to_int n)).

(** [String.prototype.padStart] with the default filler, a space. *)
Definition padStart (s : jsstring) (targetLength : Z) : jsstring :=
  List.repeat SPACE (Z.to_nat (targetLength - length s)) ++ s.

Definition clamp (len i : Z) : Z := Z.min (Z.max i 0) len.

(** [String.prototype.substring(start, end)]: both indices are clamped to
    [0, length] and swapped when start exceeds end. *)
Definition substring (s : jsstring) (start finish : Z) : jsstring :=
  let a := clamp (length s) start in
  let b := clamp (length s) finish in
  let lo := Z.min a b in
  let hi := Z.max a b in
  firstn (Z.to_nat (hi - lo)) (skipn (Z.to_nat lo) s).

(** [substring(start)]: up to the end of the string. *)
Definition substringFrom (s : jsstring) (start : Z) : jsstring :=
  substring s start (length s).

(** [String.prototype.split] with a separator of one code unit. *)
Fixpoint split (sep : N) (s : jsstring) : list jsstring :=
  match s with
  | [] => [[]]
  | c :: s' =>
      if N.eqb c sep then [] :: split sep s'
      else match split sep s' with
           | l :: ls => (c :: l) :: ls
           | [] => [[c]]
           end
  end.

(** WhiteSpace and LineTerminator code points of ECMAScript. *)
Definition isWhiteSpace (c : N) : bool :=
  existsb (N.eqb c)
    [9; 10; 11; 12; 13; 32; 160; 5760; 8192; 8193; 8194; 8195; 8196; 8197;
     8198; 8199; 8200; 8201; 8202; 8232; 8233; 8239; 8287; 12288; 65279]%N.

Fixpoint trimStart (s : jsstring) : jsstring :=
  match s with
  | c :: s' => if isWhiteSpace c then trimStart s' else s
  | [] => []
  end.

Definition trim (s : jsstring) : jsstring :=
  rev (trimStart (rev (trimStart s))).

(** [Array.prototype.join]. *)
Fixpoint join (sep : jsstring) (xs : list jsstring) : jsstring :=
  match xs with
  | [] => []
  | [x] => x
  | x :: xs' => x ++ sep ++ join sep xs'
  end.

(** [Array.prototype.slice(start, end)]: a negative index counts from the
    end of the array. *)
Definition relIndex (len i : Z) : Z :=
  if i <? 0 then Z.max (len + i) 0 else Z.min i len.

Definition slice {A : Type} (xs : list A) (start finish : Z) : list A :=
  let len := Z.of_nat (List.length xs) in
  let k := relIndex len start in
  let final := relIndex len finish in
  firstn (Z.to_nat (final - k)) (skipn (Z.to_nat k) xs).

End Js.

Import Js.

Notation "'let!' x ':=' c 'in' k" := (andThen c (fun x => k))
  (at level 10, x name, c at level 200, k at level 200).

(** ** Data model *)

Record Location : Type := mkLocation {
  line : Z;
  character : Z
}.

Record Range : Type := mkRange {
  start : Location;
  finish : Location   (* the field [end] of the source *)
}.

Inductive Severity : Type := error | warning | information.

Record PyrightDiagnostic : Type := mkDiagnostic {
  d_file : jsstring;
  d_severity : Severity;
  d_message : jsstring;
  d_range : option Range;     (* [Range | undefined] *)
  d_rule : jsstring
}.

Record PyrightSummary : Type := mkSummary {
  filesAnalyzed : Z;
  errorCount : Z;
  warningCount : Z;
  informationCount : Z;
  timeInSec : Z
}.

(** [PyrightOutput]; the element type of [generalDiagnostics] is
    [PyrightDiagnostic] in what the checker prints and [PyrightError] in
    what [check] resolves to. *)
Record PyrightOutput (D : Type) : Type := mkOutput {
  version : jsstring;
  time : jsstring;
  generalDiagnostics : list D;
  summary : PyrightSummary
}.
Arguments mkOutput {D} _ _ _ _.
Arguments version {D} _.
Arguments time {D} _.
Arguments generalDiagnostics {D} _.
Arguments summary {D} _.

(** The object built by [class PyrightError]: the two constructor
    parameters, kept as properties, and the five fields copied from the
    diagnostic. *)
Record PyrightError : Type := mkPyrightError {
  name : jsstring;
  diagnostic : PyrightDiagnostic;
  context : list jsstring;
  file : jsstring;
  severity : Severity;
  message : jsstring;
  range : option Range;
  rule : jsstring
}.

(** [new PyrightError(diagnostic, context)]. *)
Definition new_PyrightError (diagnostic : PyrightDiagnostic)
    (context : list jsstring) : PyrightError :=
  {| name := lit "PyrightError";
     diagnostic := diagnostic;
     context := context;
     file := d_file diagnostic;
     severity := d_severity diagnostic;
     message := d_message diagnostic;
     range := d_range diagnostic;
     rule := d_rule diagnostic |}.

(** [PyrightError implements PyrightDiagnostic]: the view of [this] that
    [pushFile] receives. *)
Definition asDiagnostic (e : PyrightError) : PyrightDiagnostic :=
  {| d_file := file e;
     d_severity := severity e;
     d_message := message e;
     d_range := range e;
     d_rule := rule e |}.

(** ** The colour functions *)

Class Kleur : Type := {
  bold : jsstring -> jsstring;
  blue : jsstring -> jsstring;
  red : jsstring -> jsstring;
  yellow : jsstring -> jsstring;
  dim : jsstring -> jsstring;
  green : jsstring -> jsstring
}.

(** Colours switched off (output that is not a terminal): every function
    returns its argument. *)
Definition plain : Kleur :=
  {| bold := fun s => s; blue := fun s => s; red := fun s => s;
     yellow := fun s => s; dim := fun s => s; green := fun s => s |}.

(** ** The formatter *)

Section Formatter.

Context {K : Kleur}.

Definition dimRed (s : jsstring) : jsstring := dim (red s).

(** The helpers push one line onto the [output] array; the array is passed
    in and the extended array is returned. *)

Definition pushHelp (output : list jsstring) (message : jsstring)
    (color : jsstring -> jsstring) : list jsstring :=
  output ++ [lit " " ++ dim (lit "help ~") ++ lit " " ++ color message].

Definition pushError (output : list jsstring) (message : jsstring)
    : list jsstring :=
  output ++ [lit "     " ++ red (lit "^ ") ++ lit " " ++ dimRed message].

Definition buildIndicator (start length : Z) (message : jsstring)
    : Completion jsstring :=
  let! padding := Js.repeat (lit " ") start in
  let! carets := Js.repeat (lit "^") length in
  let indicator := red carets in
  Normal (padding ++ indicator ++
          (if truthy message then lit " " ++ dimRed message else [])).

Definition pushFile (output : list jsstring) (diagnostic : PyrightDiagnostic)
    : list jsstring :=
  let formatted :=
    match d_range diagnostic with
    | Some r =>
        let startLine := line (start r) + 1 in
        let startChar := character (start r) + 1 in
        blue (d_file diagnostic ++ lit ":" ++ ofNumber startLine ++
              lit ":" ++ ofNumber startChar)
    | None => blue (d_file diagnostic)
    end in
  let formattedRule :=
    if truthy (d_rule diagnostic)
    then lit " " ++ [ARROW] ++ lit " " ++ dimRed (d_rule diagnostic)
    else [] in
  let formattedSeverity :=
    match d_severity diagnostic with
    | error => red (lit "error")
    | warning => yellow (lit "warning")
    | information => green (lit "information")
    end in
  output ++ [formattedSeverity ++ lit " " ++ formatted ++ formattedRule].

Definition pushLine (output : list jsstring) (line : jsstring)
    : list jsstring :=
  output ++ [line].

Definition pushNumberedLine (output : list jsstring) (line : jsstring)
    (lineNum : Z) (indicated : bool) : list jsstring :=
  output ++ [(if indicated then lit ">" else lit " ") ++
             dim (padStart (ofNumber (lineNum + 1)) 4) ++
             lit " " ++ [BAR] ++ lit " " ++ line].

(** [pushContext] called with one string and the default colour. *)
Definition pushContext (output : list jsstring) (context : jsstring)
    : list jsstring :=
  output ++ [lit "      " ++ [BAR] ++ lit " " ++ context].

(** The body of the callback of [this.context.forEach]. *)
Definition forEachLine (r : Range) (rule : jsstring) (startLine : Z)
    (output : list jsstring) (line' : jsstring) (i : Z)
    : Completion (list jsstring) :=
  let lineNum := startLine + i in
  let isErrorStartLine := lineNum =? line (start r) in
  let isWithinErrorLineRange :=
    (lineNum >=? line (start r)) && (lineNum <=? line (finish r)) in
  let formattedLine :=
    if isWithinErrorLineRange then
      let startChar :=
        if lineNum =? line (start r) then character (start r) else 0 in
      let endChar :=
        if lineNum =? line (finish r) then character (finish r)
        else Js.length line' in
      let before := substring line' 0 startChar in
      let highlighted := red (substring line' startChar endChar) in
      let after := substringFrom line' endChar in
      before ++ highlighted ++ after
    else line' in
  let output := pushNumberedLine output formattedLine lineNum
                  isWithinErrorLineRange in
  let isSingleLineError := line (start r) =? line (finish r) in
  let! output :=
    (if isErrorStartLine && isSingleLineError then
       let rangeLength :=
         Z.max 1 (character (finish r) - character (start r)) in
       let! ind := buildIndicator (character (start r)) rangeLength rule in
       Normal (pushContext output ind)
     else Normal output) in
  if (lineNum =? line (finish r)) && negb isSingleLineError then
    let! ind := buildIndicator (character (finish r) - 1) 1 rule in
    Normal (pushContext output ind)
  else Normal output.

(** [Array.prototype.forEach] over the context, from index [i]; an
    exception of the callback ends the loop. *)
Fixpoint forEach (f : list jsstring -> jsstring -> Z ->
                      Completion (list jsstring))
    (xs : list jsstring) (i : Z) (output : list jsstring)
    : Completion (list jsstring) :=
  match xs with
  | [] => Normal output
  | x :: xs' =>
      let! output' := f output x i in
      forEach f xs' (i + 1) output'
  end.

(** The [output] array of [formatError] just before it is joined. *)
Definition formatErrorLines (this : PyrightError) (contextLines : Z)
    : Completion (list jsstring) :=
  let output := [] in
  match range this with
  | None =>
      let output := pushFile output (asDiagnostic this) in
      if Js.eqb (rule this) (lit "reportImportCycles") then
        let errorLines := split LF (message this) in
        let helpMsg := hd [] errorLines in
        let cycleImports := tl errorLines in
        let output :=
          fold_left
            (fun out cycleImport =>
               out ++ [lit ">     " ++ [BAR] ++ lit "     " ++
                       trim cycleImport])
            cycleImports output in
        Normal (pushHelp output helpMsg dim)
      else
        let output := pushError output (message this) in
        let output := pushHelp output (rule this) dim in
        Normal (pushLine output
                  (lit "---> " ++ rule this ++ lit " needs custom handling"))
  | Some r =>
      let output := pushFile output (asDiagnostic this) in
      if negb (List.length (context this) =? 0)%nat then
        let startLine := Z.max 0 (line (start r) - contextLines) in
        let! output := forEach (forEachLine r (rule this) startLine)
                         (context this) 0 output in
        Normal (pushHelp output (message this) red)
      else Normal output
  end.

Definition formatError (this : PyrightError) (contextLines : Z)
    : Completion jsstring :=
  let! output := formatErrorLines this contextLines in
  Normal (join [LF] output).

End Formatter.

(** ** The outside world and asynchronous code *)

(** Why [readFile] rejects.  Bytes that are not UTF-8 are no such reason:
    [readFile(path, "utf-8")] decodes them to U+FFFD and is fulfilled. *)
Inductive ReadFailure : Type :=
| ENOENT          (* no such file *)
| EACCES          (* permission denied *)
| EISDIR          (* the path is a directory *)
| OtherFailure (code : jsstring).

(** What the child process leaves behind when its [close] event fires:
    the exit code ([None] for [null], a process ended by a signal) and
    what was accumulated from the two streams. *)
Record ProcessResult : Type := mkProcessResult {
  code : option Z;
  stdout : jsstring;
  stderr : jsstring
}.

(** A snapshot of the world the program talks to: for every path what
    [readFile(path, "utf-8")] settles to, a rejection or the decoded text
    of the file, and for every command line what the process leaves. *)
Record World : Type := mkWorld {
  disk : jsstring -> ReadFailure + jsstring;
  run : jsstring -> list jsstring -> ProcessResult
}.

(** The operations issued to the world, oldest first. *)
Inductive Event : Type :=
| ReadFile (path : jsstring)
| Spawn (command : jsstring) (args : list jsstring).

(** How a promise settles. *)
Inductive Settled (A : Type) : Type :=
| Fulfilled (a : A)
| RejectedRead (why : ReadFailure)
| Rejected (e : JsError).
Arguments Fulfilled {A} a.
Arguments RejectedRead {A} why.
Arguments Rejected {A} e.

Definition Async (A : Type) : Type :=
  World -> list Event -> Settled A * list Event.

Module Async.

Definition ret {A : Type} (a : A) : Async A :=
  fun _ tr => (Fulfilled a, tr).

(** [await]. *)
Definition bind {A B : Type} (m : Async A) (k : A -> Async B) : Async B :=
  fun w tr =>
    match m w tr with
    | (Fulfilled a, tr') => k a w tr'
    | (RejectedRead why, tr') => (RejectedRead why, tr')
    | (Rejected e, tr') => (Rejected e, tr')
    end.

Definition reject {A : Type} (e : JsError) : Async A :=
  fun _ tr => (Rejected e, tr).

(** [try { body } catch { handler }]. *)
Definition tryCatch {A : Type} (body handler : Async A) : Async A :=
  fun w tr =>
    match body w tr with
    | (Fulfilled a, tr') => (Fulfilled a, tr')
    | (_, tr') => handler w tr'
    end.

(** [readFile(path, "utf-8")] of [node:fs/promises]. *)
Definition readFile (path : jsstring) : Async jsstring :=
  fun w tr =>
    match disk w path with
    | inr content => (Fulfilled content, tr ++ [ReadFile path])
    | inl why => (RejectedRead why, tr ++ [ReadFile path])
    end.

(** [spawn(command, args)] of a command that can be started, up to the
    [close] event of the child. *)
Definition spawn (command : jsstring) (args : list jsstring)
    : Async ProcessResult :=
  fun w tr => (Fulfilled (run w command args), tr ++ [Spawn command args]).

(** [Promise.all(xs.map(f))]: the results come in the order of [xs],
    whatever the order in which the promises settle.  The world is a
    snapshot, so the interleaving of the tasks does not show in the
    values; the operations are logged in the order [map] starts them. *)
Fixpoint all {A B : Type} (f : A -> Async B) (xs : list A)
    : Async (list B) :=
  match xs with
  | [] => ret []
  | x :: xs' =>
      bind (f x) (fun y => bind (all f xs') (fun ys => ret (y :: ys)))
  end.

End Async.

Notation "'await!' x ':=' c 'in' k" := (Async.bind c (fun x => k))
  (at level 10, x name, c at level 200, k at level 200).

(** ** [class Pyright] *)

Section Pyright.

(** [JSON.parse(stdout)] read at the type [PyrightOutput]: [None] when the
    text is not JSON of that shape. *)
Variable JSON_parse : jsstring -> option (PyrightOutput PyrightDiagnostic).

Definition getContext (diagnostic : PyrightDiagnostic) (contextLines : Z)
    : Async (list jsstring) :=
  Async.tryCatch
    (match d_range diagnostic with
     | None => Async.ret []
     | Some r =>
         await! content := Async.readFile (d_file diagnostic) in
         let lines := split LF content in
         let startLine := Z.max 0 (line (start r) - contextLines) in
         let endLine :=
           Z.min (Z.of_nat (List.length lines))
                 (line (finish r) + contextLines + 1) in
         Async.ret (slice lines startLine endLine)
     end)
    (Async.ret []).

(** [files: string | string[]]. *)
Definition fileList (files : jsstring + list jsstring) : list jsstring :=
  match files with
  | inl f => [f]
  | inr fs => fs
  end.

(** [stderr || stdout]. *)
Definition orElse (a b : jsstring) : jsstring :=
  if truthy a then a else b.

Definition check (files : jsstring + list jsstring) (options : list jsstring)
    : Async (PyrightOutput PyrightError) :=
  let fileList := fileList files in
  let args := [lit "--outputjson"] ++ options ++ fileList in
  await! pyright := Async.spawn (lit "pyright") args in
  match code pyright with
  | Some 0 =>
      Async.ret
        {| version := [];
           time := [];
           generalDiagnostics := [];
           summary :=
             {| filesAnalyzed := Z.of_nat (List.length fileList);
                errorCount := 0;
                warningCount := 0;
                informationCount := 0;
                timeInSec := 0 |} |}
  | _ =>
      Async.tryCatch
        (match JSON_parse (stdout pyright) with
         | None => Async.reject (SyntaxError (lit "Unexpected token"))
         | Some output =>
             await! diagnosticsWithContext :=
               Async.all
                 (fun diagnostic =>
                    await! context := getContext diagnostic 2 in
                    Async.ret (new_PyrightError diagnostic context))
                 (generalDiagnostics output) in
             Async.ret
               {| version := version output;
                  time := time output;
                  generalDiagnostics := diagnosticsWithContext;
                  summary := summary output |}
         end)
        (Async.reject
           (Error (lit "Failed to parse pyright output: " ++
                   orElse (stderr pyright) (stdout pyright))))
  end.

Definition checkFile (filePath : jsstring) (options : list jsstring) :=
  check (inl filePath) options.

Definition checkFiles (files : list jsstring) (options : list jsstring) :=
  check (inr files) options.

Definition checkDirectory (dirPath : jsstring) (options : list jsstring) :=
  check (inl dirPath) options.

End Pyright.

(** ** The lines of a report *)

Section Rendered.

Context {K : Kleur}.

(** The place shown in the header of a diagnostic with a range: the file
    and the one-based line and column. *)
Definition place (f : jsstring) (r : Range) : jsstring :=
  f ++ lit ":" ++ ofNumber (line (start r) + 1) ++ lit ":" ++
  ofNumber (character (start r) + 1).

(** The header: severity, place, and the rule when there is one. *)
Definition headerLine (sev : Severity) (place rule : jsstring) : jsstring :=
  match sev with
  | error => red (lit "error")
  | warning => yellow (lit "warning")
  | information => green (lit "information")
  end ++ lit " " ++ blue place ++
  match rule with
  | [] => []
  | _ :: _ => lit " " ++ [ARROW] ++ lit " " ++ dim (red rule)
  end.

(** A line of the gutter without a number. *)
Definition gutter (s : jsstring) : jsstring :=
  lit "      " ++ [BAR] ++ lit " " ++ s.

Definition helpLine (color : jsstring -> jsstring) (msg : jsstring)
    : jsstring :=
  lit " " ++ dim (lit "help ~") ++ lit " " ++ color msg.

(** The numbered line of the context line at index [i]. *)
Definition numbered (r : Range) (startLine i : Z) (text : jsstring)
    : jsstring :=
  let n := startLine + i in
  let within := (line (start r) <=? n) && (n <=? line (finish r)) in
  let a := if n =? line (start r) then character (start r) else 0 in
  let b := if n =? line (finish r) then character (finish r)
           else Js.length text in
  (if within then lit ">" else lit " ") ++
  dim (padStart (ofNumber (n + 1)) 4) ++ lit " " ++ [BAR] ++ lit " " ++
  (if within
   then substring text 0 a ++ red (substring text a b) ++
        substringFrom text b
   else text).

Fixpoint numberedFrom (r : Range) (startLine i : Z) (ls : list jsstring)
    : list jsstring :=
  match ls with
  | [] => []
  | l :: ls' => numbered r startLine i l :: numberedFrom r startLine (i + 1) ls'
  end.

(** An indicator: [pad] spaces, [n] carets in red, then the rule. *)
Definition indicatorLine (pad n : Z) (rule : jsstring) : jsstring :=
  gutter (List.repeat SPACE (Z.to_nat pad) ++
          red (List.repeat CARET (Z.to_nat n)) ++
          match rule with
          | [] => []
          | _ :: _ => lit " " ++ dim (red rule)
          end).

End Rendered.

(** ** What [getContext] loads and how the checker is started *)

(** The value [getContext] settles to in the world [w]. *)
Definition contextOf (w : World) (d : PyrightDiagnostic) (contextLines : Z)
    : list jsstring :=
  match fst (getContext d contextLines w []) with
  | Fulfilled ctx => ctx
  | _ => []
  end.

(** The reads [getContext] issues for a diagnostic. *)
Definition readsOf (d : PyrightDiagnostic) : list Event :=
  match d_range d with
  | Some _ => [ReadFile (d_file d)]
  | None => []
  end.

(** The arguments the checker is started with. *)
Definition argsOf (files : jsstring + list jsstring)
    (options : list jsstring) : list jsstring :=
  [lit "--outputjson"] ++ options ++ fileList files.

(** ** Sample diagnostics, files and runs *)

Definition sampleRule : jsstring := lit "reportGeneralTypeIssues".

Definition sampleDiagnostic (r : option Range) : PyrightDiagnostic :=
  {| d_file := lit "a.py"; d_severity := error; d_message := lit "bad";
     d_range := r; d_rule := sampleRule |}.

Definition span (l1 c1 l2 c2 : Z) : Range :=
  mkRange (mkLocation l1 c1) (mkLocation l2 c2).

(** A range on line 1, columns 2 to 5, with lines 0 to 3 as context. *)
Definition singleLineError : PyrightError :=
  new_PyrightError (sampleDiagnostic (Some (span 1 2 1 5)))
    [lit "import os"; lit "x: int = 'a'"; lit ""; lit "print(x)"].

(** A range on line 5 whose context is the one line at index 3. *)
Definition shortContextError : PyrightError :=
  new_PyrightError (sampleDiagnostic (Some (span 5 0 5 3))) [lit "x"].


(** A range that ends at column 0 of line 1. *)
Definition endColumnZeroError : PyrightError :=
  new_PyrightError (sampleDiagnostic (Some (span 0 0 1 0)))
    [lit "a"; lit "b"].

(** The same shape further down the file. *)
Definition endColumnZeroDeep : PyrightError :=
  new_PyrightError (sampleDiagnostic (Some (span 4 2 6 0)))
    [lit "l2"; lit "l3"; lit "f(a,"; lit "  b,"; lit "  c)"; lit "l7";
     lit "l8"].

Definition noContextError : PyrightError :=
  new_PyrightError (sampleDiagnostic (Some (span 3 4 3 9))) [].

Definition cycleError : PyrightError :=
  new_PyrightError
    {| d_file := lit "pkg/a.py"; d_severity := warning;
       d_message := lit "cycle detected" ++ [LF] ++ lit "fileA.py" ++
                    [LF] ++ lit "fileB.py";
       d_range := None; d_rule := lit "reportImportCycles" |}
    [].

(** A file of [n] lines that hold their own zero-based number. *)
Definition numberedFile (n : nat) : jsstring :=
  join [LF] (map (fun i => ofNumber (Z.of_nat i)) (seq 0 n)).

(** A world with one readable file, [a.py], and a checker that fails. *)
Definition sampleWorld (content : jsstring) : World :=
  {| disk := fun path =>
       if Js.eqb path (lit "a.py") then inr content else inl ENOENT;
     run := fun _ _ =>
       {| code := Some 1; stdout := lit "{}"; stderr := [] |} |}.

(** A checker that finds nothing and prints text that is not JSON. *)
Definition quietWorld : World :=
  {| disk := fun _ => inl ENOENT;
     run := fun _ _ =>
       {| code := Some 0; stdout := lit "No configuration file found.";
          stderr := [] |} |}.

Definition sampleOutput : PyrightOutput PyrightDiagnostic :=
  {| version := lit "1.1.400";
     time := lit "1700000000000";
     generalDiagnostics :=
       [sampleDiagnostic (Some (span 1 2 1 5)); sampleDiagnostic None];
     summary := mkSummary 1 2 0 0 1 |}.

(** A parser that knows one text. *)
Definition sampleParse (s : jsstring)
    : option (PyrightOutput PyrightDiagnostic) :=
  if Js.eqb s (lit "{}") then Some sampleOutput else None.

(** ** The command line *)

Module Cli.

(** [interface PyrightArgs], as [parseArguments] fills it: an absent flag
    is [false], [verbose] counts the occurrences of [-v], and [context] is
    the integer read from [-c] (2 without the option). *)
Record PyrightArgs : Type := mkPyrightArgs {
  debug : bool;
  verbose : Z;
  quiet : bool;
  context : Z;
  showSummary : bool;
  help : bool
}.

(** What a [catch] clause receives. *)
Inductive Thrown : Type :=
| ThrownRead (why : ReadFailure)
| ThrownError (e : JsError).

(** The calls on [console], oldest first. *)
Inductive Console : Type :=
| ConsoleLog (text : jsstring)
| ConsoleError (label : jsstring) (error : Thrown).

(** How [main] ends: [process.exit(status)], or a plain return, after
    which the process ends with status 0. *)
Inductive Ending : Type :=
| Exit (status : Z)
| Return.

(** U+00BB, the double angle of the summary. *)
Definition RAQUO : N := 187%N.

(** The text of [--help]. *)
Definition usage : jsstring :=
  join [LF]
    [lit "";
     lit "Usage: pyright-pretty [options] [file ...]";
     lit "";
     lit "Options:";
     lit "  -v, --verbose           Increase verbosity level";
     lit "  -q, --quiet            Suppress all output except errors";
     lit "  -c, --context NUM      Number of context lines (default: 2)";
     lit "  --show-summary         Show summary after errors";
     lit "  --debug                Enable debug logging";
     lit "  --help                 Show this help message";
     lit "    "].

Section Main.

Context {K : Kleur}.

(** [JSON.parse] as in [check], and [JSON.stringify(result, null, 2)]. *)
Variable JSON_parse : jsstring -> option (PyrightOutput PyrightDiagnostic).
Variable JSON_stringify : PyrightOutput PyrightError -> jsstring.

(** A counter in its colour: green when it is zero. *)
Definition counter (color : jsstring -> jsstring) (n : Z) : jsstring :=
  if n =? 0 then green (ofNumber n) else color (ofNumber n).

(** [formatSummary]; the numbers of the summary are integers here, the
    time included. *)
Definition formatSummary (summary : PyrightSummary) : jsstring :=
  trim
    ([LF] ++ bold (lit "Summary:") ++ [LF] ++
     lit "  Files analyzed   " ++ dim [RAQUO] ++ lit " " ++
       ofNumber (filesAnalyzed summary) ++ [LF] ++
     lit "  Errors          " ++ dim [RAQUO] ++ lit " " ++
       counter red (errorCount summary) ++ [LF] ++
     lit "  Warnings        " ++ dim [RAQUO] ++ lit " " ++
       counter yellow (warningCount summary) ++ [LF] ++
     lit "  Information     " ++ dim [RAQUO] ++ lit " " ++
       counter blue (informationCount summary) ++ [LF] ++
     lit "  Time            " ++ dim [RAQUO] ++ lit " " ++
       bold (ofNumber (timeInSec summary)) ++ lit "s" ++ [LF]).

(** The loop [for (const diagnostic of result.generalDiagnostics)]: every
    element is a [PyrightError], so each one is formatted and logged; an
    exception of [formatError] leaves the loop with what was logged. *)
Fixpoint logDiagnostics (diagnostics : list PyrightError) (contextLines : Z)
    (console : list Console) : list Console * option JsError :=
  match diagnostics with
  | [] => (console, None)
  | diagnostic :: rest =>
      match formatError diagnostic contextLines with
      | Normal text =>
          logDiagnostics rest contextLines
            (console ++ [ConsoleLog ([LF] ++ text)])
      | Throw e => (console, Some e)
      end
  end.

(** The handler of the [try] of [main]. *)
Definition caught (console : list Console) (error : Thrown)
    : list Console * Ending :=
  (console ++ [ConsoleError (lit "Error running pyright:") error], Exit 1).

(** [main] from the result of [parseArguments] on. *)
Definition main (args : PyrightArgs) (remaining : list jsstring)
    (w : World) (tr : list Event) : (list Console * Ending) * list Event :=
  if help args then (([ConsoleLog usage], Exit 0), tr)
  else
    match check JSON_parse (inr remaining) [] w tr with
    | (Fulfilled result, tr') =>
        let console :=
          if debug args then [ConsoleLog (JSON_stringify result)] else [] in
        if (0 <? Z.of_nat (List.length (generalDiagnostics result))) then
          match logDiagnostics (generalDiagnostics result) (context args)
                  console with
          | (console, Some e) => (caught console (ThrownError e), tr')
          | (console, None) =>
              let console := console ++ [ConsoleLog (lit "")] in
              let console :=
                if showSummary args
                then console ++
                     [ConsoleLog ([LF] ++ formatSummary (summary result))]
                else console in
              ((console, Exit 1), tr')
          end
        else
          ((if quiet args then console
            else console ++ [ConsoleLog (lit "No errors found!")],
            Return), tr')
    | (RejectedRead why, tr') => (caught [] (ThrownRead why), tr')
    | (Rejected e, tr') => (caught [] (ThrownError e), tr')
    end.

End Main.

End Cli.

(** U+FFFD, what the decoder of [readFile] puts for undecodable bytes. *)
Definition REPLACEMENT : N := 65533%N.

(** What [readFile(path, "utf-8")] is fulfilled with for a file of the
    five bytes FF FE 78 0A 79: the first two bytes are not UTF-8. *)
Definition undecodableText : jsstring :=
  [REPLACEMENT; REPLACEMENT] ++ lit "x" ++ [LF] ++ lit "y".

(** The log of [--debug]. *)
Definition debugLog (JSON_stringify : PyrightOutput PyrightError -> jsstring)
    (args : Cli.PyrightArgs) (result : PyrightOutput PyrightError)
    : list Cli.Console :=
  if Cli.debug args then [Cli.ConsoleLog (JSON_stringify result)] else [].

(** [new PyrightError(d, context)] with the context [check] loads. *)
Definition wrap (w : World) (d : PyrightDiagnostic) : PyrightError :=
  new_PyrightError d (contextOf w d 2).

(** The result of [check] when the checker exits with status 0. *)
Definition emptyResult (files : list jsstring) : PyrightOutput PyrightError :=
  {| version := []; time := []; generalDiagnostics := [];
     summary := mkSummary (Z.of_nat (List.length files)) 0 0 0 0 |}.

(** Arguments without any option. *)
Definition noOptions : Cli.PyrightArgs :=
  Cli.mkPyrightArgs false 0 false 2 false false.

(** A parser whose one text holds a range that ends at column 0. *)
Definition throwingOutput : PyrightOutput PyrightDiagnostic :=
  {| version := lit "1.1.400";
     time := lit "1700000000000";
     generalDiagnostics :=
       [sampleDiagnostic None; sampleDiagnostic (Some (span 0 0 1 0));
        sampleDiagnostic (Some (span 1 2 1 5))];
     summary := mkSummary 1 3 0 0 1 |}.

Definition throwingParse (s : jsstring)
    : option (PyrightOutput PyrightDiagnostic) :=
  if Js.eqb s (lit "{}") then Some throwingOutput else None.

(** A checker that fails and prints text that is not JSON. *)
Definition brokenWorld : World :=
  {| disk := fun _ => inl ENOENT;
     run := fun _ _ =>
       {| code := Some 3; stdout := lit "not json";
          stderr := lit "fatal" |} |}.

Definition sampleStringify (result : PyrightOutput PyrightError)
    : jsstring :=
  lit "{...}".

(** ** Lemmas on strings and arrays *)

Lemma concat_repeat_unit (c : N) (n : nat) :
  List.concat (List.repeat [c] n) = List.repeat c n.
Proof.
  induction n as [|n IH]; simpl; [reflexivity | now rewrite IH].
Qed.

Lemma repeat_nonneg (c : N) (n : Z) :
  0 <= n -> Js.repeat [c] n = Normal (List.repeat c (Z.to_nat n)).
Proof.
  intros Hn. unfold Js.repeat.
  destruct (Z.ltb_spec n 0) as [Hlt|_]; [lia|].
  now rewrite concat_repeat_unit.
Qed.

Lemma repeat_negative (s : jsstring) (n : Z) :
  n < 0 -> exists msg, Js.repeat s n = Throw (RangeError msg).
Proof.
  intros Hn. unfold Js.repeat.
  destruct (Z.ltb_spec n 0) as [_|Hge]; [eauto | lia].
Qed.

Lemma eqb_refl (s : jsstring) : Js.eqb s s = true.
Proof.
  induction s as [|c s IH]; simpl; [reflexivity|].
  now rewrite N.eqb_refl, IH.
Qed.

Lemma eqb_eq (a b : jsstring) : Js.eqb a b = true <-> a = b.
Proof.
  split; [|intros ->; apply eqb_refl].
  revert b; induction a as [|x a IH]; intros [|y b]; simpl;
    try discriminate; [reflexivity|].
  intros H. apply andb_true_iff in H as [Hx Hab].
  apply N.eqb_eq in Hx. f_equal; [exact Hx | now apply IH].
Qed.

Lemma fold_left_push {A B : Type} (g : A -> B) (xs : list A) (out : list B) :
  fold_left (fun o x => o ++ [g x]) xs out = out ++ map g xs.
Proof.
  revert out; induction xs as [|x xs IH]; intros out; simpl.
  - now rewrite app_nil_r.
  - rewrite IH, <- app_assoc. reflexivity.
Qed.

Lemma split_nonempty (sep : N) (s : jsstring) : split sep s <> [].
Proof.
  destruct s as [|c s]; simpl; [discriminate|].
  destruct (N.eqb c sep); [discriminate|].
  destruct (split sep s); discriminate.
Qed.

(** [slice] with indices inside the array is the plain window. *)
Lemma slice_window {A : Type} (xs : list A) (lo hi : Z) :
  0 <= lo -> 0 <= hi <= Z.of_nat (List.length xs) ->
  slice xs lo hi =
  firstn (Z.to_nat (hi - lo)) (skipn (Z.to_nat lo) xs).
Proof.
  intros Hlo Hhi. unfold slice, relIndex.
  destruct (Z.ltb_spec lo 0) as [?|_]; [lia|].
  destruct (Z.ltb_spec hi 0) as [?|_]; [lia|].
  rewrite (Z.min_l hi) by lia.
  destruct (Z.le_gt_cases lo (Z.of_nat (List.length xs))) as [Hle|Hgt].
  - now rewrite Z.min_l by lia.
  - rewrite Z.min_r by lia.
    replace (Z.to_nat (hi - Z.of_nat (List.length xs))) with 0%nat by lia.
    replace (Z.to_nat (hi - lo)) with 0%nat by lia.
    reflexivity.
Qed.

Lemma nth_error_window {A : Type} (xs : list A) (lo n j : nat) :
  (j < n)%nat ->
  nth_error (firstn n (skipn lo xs)) j = nth_error xs (lo + j).
Proof.
  intros Hj. rewrite nth_error_firstn.
  destruct (Nat.ltb_spec j n) as [_|?]; [|lia].
  apply nth_error_skipn.
Qed.

(** ** The formatter, line by line *)

Section FormatterFacts.

Context {K : Kleur}.

Lemma pushFile_header (out : list jsstring) (d : PyrightDiagnostic) :
  pushFile out d =
  out ++ [headerLine (d_severity d)
            (match d_range d with
             | Some r =>
                 d_file d ++ lit ":" ++ ofNumber (line (start r) + 1) ++
                 lit ":" ++ ofNumber (character (start r) + 1)
             | None => d_file d
             end)
            (d_rule d)].
Proof.
  unfold pushFile, headerLine, dimRed.
  destruct (d_range d), (d_severity d), (d_rule d); reflexivity.
Qed.

Lemma buildIndicator_ok (pad n : Z) (rule : jsstring) :
  0 <= pad -> 0 <= n ->
  buildIndicator pad n rule =
  Normal (List.repeat SPACE (Z.to_nat pad) ++
          red (List.repeat CARET (Z.to_nat n)) ++
          match rule with
          | [] => []
          | _ :: _ => lit " " ++ dim (red rule)
          end).
Proof.
  intros Hpad Hn. unfold buildIndicator.
  change (lit " ") with [SPACE]. change (lit "^") with [CARET].
  rewrite !repeat_nonneg by assumption. simpl.
  destruct rule; reflexivity.
Qed.

Lemma buildIndicator_negative (pad n : Z) (rule : jsstring) :
  pad < 0 -> exists msg, buildIndicator pad n rule = Throw (RangeError msg).
Proof.
  intros Hpad. unfold buildIndicator.
  destruct (repeat_negative (lit " ") pad Hpad) as [msg ->].
  exists msg. reflexivity.
Qed.

Lemma numbered_pushed (r : Range) (sl i : Z) (text : jsstring)
    (out : list jsstring) :
  let n := sl + i in
  let within := (n >=? line (start r)) && (n <=? line (finish r)) in
  pushNumberedLine out
    (if within
     then
       substring text 0
         (if n =? line (start r) then character (start r) else 0) ++
       red (substring text
              (if n =? line (start r) then character (start r) else 0)
              (if n =? line (finish r) then character (finish r)
               else Js.length text)) ++
       substringFrom text
         (if n =? line (finish r) then character (finish r)
          else Js.length text)
     else text) n within =
  out ++ [numbered r sl i text].
Proof.
  cbv zeta. unfold pushNumberedLine, numbered.
  rewrite Z.geb_leb. reflexivity.
Qed.

(** A context line that carries no indicator. *)
Lemma forEachLine_plain (r : Range) (rule : jsstring) (sl i : Z)
    (text : jsstring) (out : list jsstring) :
  (line (start r) = line (finish r) -> sl + i <> line (start r)) ->
  (line (start r) <> line (finish r) -> sl + i <> line (finish r)) ->
  forEachLine r rule sl out text i = Normal (out ++ [numbered r sl i text]).
Proof.
  intros Hone Hmulti. unfold forEachLine.
  rewrite numbered_pushed.
  destruct (Z.eqb_spec (line (start r)) (line (finish r))) as [Heq|Hne].
  - destruct (Z.eqb_spec (sl + i) (line (start r))) as [E|_];
      [now elim (Hone Heq)|].
    simpl. rewrite andb_false_r. reflexivity.
  - rewrite andb_false_r. simpl.
    destruct (Z.eqb_spec (sl + i) (line (finish r))) as [E|_];
      [now elim (Hmulti Hne)|].
    reflexivity.
Qed.

(** The start line of a range that lies on one line. *)
Lemma forEachLine_single (r : Range) (rule : jsstring) (sl i : Z)
    (text : jsstring) (out : list jsstring) :
  line (start r) = line (finish r) ->
  sl + i = line (start r) ->
  0 <= character (start r) ->
  forEachLine r rule sl out text i =
  Normal (out ++ [numbered r sl i text;
                  indicatorLine (character (start r))
                    (Z.max 1 (character (finish r) - character (start r)))
                    rule]).
Proof.
  intros Heq Hi Hc. unfold forEachLine.
  rewrite numbered_pushed.
  rewrite (proj2 (Z.eqb_eq _ _) Hi), (proj2 (Z.eqb_eq _ _) Heq).
  simpl. rewrite buildIndicator_ok by lia. simpl.
  rewrite andb_false_r. unfold pushContext, indicatorLine, gutter.
  rewrite <- app_assoc. reflexivity.
Qed.

(** The end line of a range that spans several lines. *)
Lemma forEachLine_multi (r : Range) (rule : jsstring) (sl i : Z)
    (text : jsstring) (out : list jsstring) :
  line (start r) <> line (finish r) ->
  sl + i = line (finish r) ->
  forEachLine r rule sl out text i =
  let! ind := buildIndicator (character (finish r) - 1) 1 rule in
  Normal (out ++ [numbered r sl i text; gutter ind]).
Proof.
  intros Hne Hi. unfold forEachLine.
  rewrite numbered_pushed.
  rewrite (proj2 (Z.eqb_neq _ _) Hne), (proj2 (Z.eqb_eq _ _) Hi).
  rewrite andb_false_r. simpl.
  destruct (buildIndicator (character (finish r) - 1) 1 rule); simpl;
    [|reflexivity].
  unfold pushContext, gutter. rewrite <- app_assoc. reflexivity.
Qed.

Lemma forEach_app (f : list jsstring -> jsstring -> Z ->
                       Completion (list jsstring))
    (xs ys : list jsstring) (i : Z) (out : list jsstring) :
  forEach f (xs ++ ys) i out =
  let! out' := forEach f xs i out in
  forEach f ys (i + Z.of_nat (List.length xs)) out'.
Proof.
  revert i out; induction xs as [|x xs IH]; intros i out;
    cbn [app forEach List.length andThen].
  - now rewrite Z.add_0_r.
  - destruct (f out x i) as [out'|e]; cbn [andThen]; [|reflexivity].
    rewrite IH, Nat2Z.inj_succ.
    now replace (i + 1 + Z.of_nat (List.length xs))
      with (i + Z.succ (Z.of_nat (List.length xs))) by lia.
Qed.

(** A stretch of context lines none of which carries an indicator. *)
Lemma forEach_plain (r : Range) (rule : jsstring) (sl : Z)
    (ls : list jsstring) (i : Z) (out : list jsstring) :
  (forall j, i <= j < i + Z.of_nat (List.length ls) ->
     (line (start r) = line (finish r) -> sl + j <> line (start r)) /\
     (line (start r) <> line (finish r) -> sl + j <> line (finish r))) ->
  forEach (forEachLine r rule sl) ls i out =
  Normal (out ++ numberedFrom r sl i ls).
Proof.
  revert i out; induction ls as [|l ls IH]; intros i out H; simpl.
  - now rewrite app_nil_r.
  - rewrite forEachLine_plain; try (apply H; simpl; lia).
    simpl. rewrite IH.
    + rewrite <- app_assoc. reflexivity.
    + intros j Hj. apply H. simpl List.length. lia.
Qed.

(** The loop around the one context line, at index [k], that carries the
    indicator [ind]. *)
Lemma forEach_one_indicator (r : Range) (rule : jsstring) (sl target : Z)
    (ctx : list jsstring) (k : nat) (text ind : jsstring)
    (out : list jsstring) :
  nth_error ctx k = Some text ->
  sl + Z.of_nat k = target ->
  target = (if line (start r) =? line (finish r)
            then line (start r) else line (finish r)) ->
  (forall o, forEachLine r rule sl o text (Z.of_nat k) =
             Normal (o ++ [numbered r sl (Z.of_nat k) text; ind])) ->
  forEach (forEachLine r rule sl) ctx 0 out =
  Normal (out ++ numberedFrom r sl 0 (firstn k ctx) ++
          [numbered r sl (Z.of_nat k) text; ind] ++
          numberedFrom r sl (Z.of_nat (S k)) (skipn (S k) ctx)).
Proof.
  intros Hnth Hk Htarget Hline.
  destruct (nth_error_split ctx k Hnth) as (pre & post & Hctx & Hlen).
  assert (Hpre : firstn k ctx = pre).
  { subst ctx k. now rewrite firstn_app, Nat.sub_diag, firstn_all,
      app_nil_r. }
  assert (Hpost : skipn (S k) ctx = post).
  { subst ctx k.
    change (pre ++ text :: post) with (pre ++ [text] ++ post).
    rewrite app_assoc.
    replace (S (List.length pre)) with (List.length (pre ++ [text]) + 0)%nat
      by (rewrite length_app; simpl; lia).
    now rewrite skipn_app, Nat.add_sub_swap, Nat.sub_diag,
      skipn_all2 by lia. }
  rewrite Hpre, Hpost. rewrite Hctx at 1.
  assert (Hsplit : forall j, j <> Z.of_nat k ->
     (line (start r) = line (finish r) -> sl + j <> line (start r)) /\
     (line (start r) <> line (finish r) -> sl + j <> line (finish r))).
  { intros j Hj. split; intros Hr.
    - rewrite (proj2 (Z.eqb_eq _ _) Hr) in Htarget. lia.
    - rewrite (proj2 (Z.eqb_neq _ _) Hr) in Htarget. lia. }
  rewrite forEach_app, forEach_plain
    by (intros j Hj; apply Hsplit; lia).
  cbn [andThen forEach]. rewrite Hlen, Z.add_0_l, Hline.
  cbn [andThen].
  rewrite forEach_plain by (intros j Hj; apply Hsplit; lia).
  rewrite <- !app_assoc, Nat2Z.inj_succ. reflexivity.
Qed.

End FormatterFacts.

(** ** Properties of [formatError] *)

Section FormatterClaims.

Context {K : Kleur}.

(** The report of a diagnostic with a range and a context in which one
    line, at index [k], carries the indicator [ind]. *)
Lemma formatErrorLines_one_indicator (this : PyrightError)
    (contextLines : Z) (r : Range) (k : nat) (text ind : jsstring) :
  let sl := Z.max 0 (line (start r) - contextLines) in
  range this = Some r ->
  nth_error (context this) k = Some text ->
  sl + Z.of_nat k = (if line (start r) =? line (finish r)
                     then line (start r) else line (finish r)) ->
  (forall o, forEachLine r (rule this) sl o text (Z.of_nat k) =
             Normal (o ++ [numbered r sl (Z.of_nat k) text; ind])) ->
  formatErrorLines this contextLines =
  Normal ([headerLine (severity this) (place (file this) r) (rule this)] ++
          numberedFrom r sl 0 (firstn k (context this)) ++
          [numbered r sl (Z.of_nat k) text; ind] ++
          numberedFrom r sl (Z.of_nat (S k)) (skipn (S k) (context this)) ++
          [helpLine red (message this)]).
Proof.
  intros sl Hr Hnth Hk Hline. unfold formatErrorLines. rewrite Hr.
  rewrite pushFile_header. cbn [asDiagnostic d_range d_severity d_file d_rule].
  destruct (context this) as [|c0 ctx] eqn:Hctx;
    [destruct k; discriminate|].
  cbn [List.length Nat.eqb negb]. fold sl.
  rewrite (forEach_one_indicator r (rule this) sl _ _ k text ind _
             Hnth Hk eq_refl Hline).
  cbn [andThen]. unfold pushHelp, helpLine, place.
  rewrite Hr, <- !app_assoc. reflexivity.
Qed.

(** C1 (as amended).  For a range on one line, a non-negative start column
    and a context that reaches the start line (the line at index
    [start.line - max(0, start.line - contextLines)] exists), the report is
    the header, the numbered context lines and the help line, with exactly
    one more line directly under the numbered start line: the gutter,
    [start.character] spaces, [max(1, end.character - start.character)]
    carets in red, and then a space and the dimmed rule name when the rule
    is not empty. *)
Theorem single_line_indicator (this : PyrightError) (contextLines : Z)
    (r : Range) (text : jsstring) :
  let sl := Z.max 0 (line (start r) - contextLines) in
  let k := Z.to_nat (line (start r) - sl) in
  range this = Some r ->
  line (start r) = line (finish r) ->
  0 <= line (start r) -> 0 <= character (start r) -> 0 <= contextLines ->
  nth_error (context this) k = Some text ->
  formatErrorLines this contextLines =
  Normal ([headerLine (severity this) (place (file this) r) (rule this)] ++
          numberedFrom r sl 0 (firstn k (context this)) ++
          [numbered r sl (Z.of_nat k) text;
           gutter (List.repeat SPACE (Z.to_nat (character (start r))) ++
                   red (List.repeat CARET
                          (Z.to_nat (Z.max 1 (character (finish r) -
                                              character (start r))))) ++
                   match rule this with
                   | [] => []
                   | _ :: _ => lit " " ++ dim (red (rule this))
                   end)] ++
          numberedFrom r sl (Z.of_nat (S k)) (skipn (S k) (context this)) ++
          [helpLine red (message this)]).
Proof.
  intros sl k Hr Hone Hl Hc Hcl Hnth.
  assert (Hk : sl + Z.of_nat k = line (start r)) by (unfold k, sl; lia).
  apply (formatErrorLines_one_indicator this contextLines r k text _ Hr Hnth).
  - fold sl. rewrite (proj2 (Z.eqb_eq _ _) Hone). exact Hk.
  - intros o. fold sl. now rewrite forEachLine_single.
Qed.


(** C5.  A diagnostic with a range and an empty context is rendered as the
    header alone: the coloured severity, [file:line:col] one-based, and the
    rule when there is one. *)
Theorem empty_context_header_only (this : PyrightError) (contextLines : Z)
    (r : Range) :
  range this = Some r ->
  context this = [] ->
  formatErrorLines this contextLines =
    Normal [headerLine (severity this)
              (file this ++ lit ":" ++ ofNumber (line (start r) + 1) ++
               lit ":" ++ ofNumber (character (start r) + 1))
              (rule this)] /\
  formatError this contextLines =
    Normal (headerLine (severity this)
              (file this ++ lit ":" ++ ofNumber (line (start r) + 1) ++
               lit ":" ++ ofNumber (character (start r) + 1))
              (rule this)).
Proof.
  intros Hr Hctx.
  assert (H : formatErrorLines this contextLines =
    Normal [headerLine (severity this) (place (file this) r) (rule this)]).
  { unfold formatErrorLines. rewrite Hr, Hctx, pushFile_header.
    cbn. rewrite Hr. reflexivity. }
  split; [exact H|]. unfold formatError. rewrite H. reflexivity.
Qed.

(** C6.  A diagnostic without a range whose rule is [reportImportCycles]
    is rendered as the header, one marker-prefixed line for each line of
    the message after the first, and the first line as the dimmed help
    line; for the message [cycle detected / fileA.py / fileB.py] these
    are two member lines and the help line [cycle detected]. *)
Theorem import_cycle_rendering (this : PyrightError) (contextLines : Z) :
  range this = None ->
  rule this = lit "reportImportCycles" ->
  formatErrorLines this contextLines =
    Normal ([headerLine (severity this) (file this) (rule this)] ++
            map (fun member =>
                   lit ">     " ++ [BAR] ++ lit "     " ++ trim member)
                (tl (split LF (message this))) ++
            [lit " " ++ dim (lit "help ~") ++ lit " " ++
             dim (hd [] (split LF (message this)))]) /\
  (message this = lit "cycle detected" ++ [LF] ++ lit "fileA.py" ++ [LF] ++
                  lit "fileB.py" ->
   formatErrorLines this contextLines =
     Normal [headerLine (severity this) (file this) (rule this);
             lit ">     " ++ [BAR] ++ lit "     " ++ lit "fileA.py";
             lit ">     " ++ [BAR] ++ lit "     " ++ lit "fileB.py";
             lit " " ++ dim (lit "help ~") ++ lit " " ++
             dim (lit "cycle detected")]).
Proof.
  intros Hr Hrule.
  assert (H : formatErrorLines this contextLines =
    Normal ([headerLine (severity this) (file this) (rule this)] ++
            map (fun member =>
                   lit ">     " ++ [BAR] ++ lit "     " ++ trim member)
                (tl (split LF (message this))) ++
            [lit " " ++ dim (lit "help ~") ++ lit " " ++
             dim (hd [] (split LF (message this)))])).
  { unfold formatErrorLines. rewrite Hr, pushFile_header.
    cbn [asDiagnostic d_range d_severity d_file d_rule]. rewrite Hr.
    rewrite (proj2 (eqb_eq _ _) Hrule).
    rewrite fold_left_push. unfold pushHelp.
    rewrite <- !app_assoc. reflexivity. }
  split; [exact H|]. intros Hmsg. rewrite H, Hmsg. reflexivity.
Qed.

End FormatterClaims.

(** ** When [formatError] returns and when it throws *)

Section FormatterCompletes.

Context {K : Kleur}.

Lemma forEachLine_returns (r : Range) (rule : jsstring) (sl i : Z)
    (text : jsstring) (out : list jsstring) :
  0 <= character (start r) ->
  (line (start r) <> line (finish r) -> 1 <= character (finish r)) ->
  exists out', forEachLine r rule sl out text i = Normal out'.
Proof.
  intros Hs He.
  destruct (Z.eq_dec (line (start r)) (line (finish r))) as [Hone|Hmulti].
  - destruct (Z.eq_dec (sl + i) (line (start r))) as [Hi|Hi].
    + rewrite forEachLine_single by assumption. eauto.
    + rewrite forEachLine_plain by (intros; congruence). eauto.
  - destruct (Z.eq_dec (sl + i) (line (finish r))) as [Hi|Hi].
    + rewrite forEachLine_multi by assumption.
      rewrite buildIndicator_ok by (specialize (He Hmulti); lia).
      cbn [andThen]. eauto.
    + rewrite forEachLine_plain by (intros; congruence). eauto.
Qed.

Lemma forEach_returns (r : Range) (rule : jsstring) (sl : Z)
    (ls : list jsstring) (i : Z) (out : list jsstring) :
  0 <= character (start r) ->
  (line (start r) <> line (finish r) -> 1 <= character (finish r)) ->
  exists out', forEach (forEachLine r rule sl) ls i out = Normal out'.
Proof.
  intros Hs He. revert i out.
  induction ls as [|l ls IH]; intros i out; cbn [forEach]; [eauto|].
  destruct (forEachLine_returns r rule sl i l out Hs He) as [out' ->].
  cbn [andThen]. apply IH.
Qed.

(** With non-negative start columns, and end columns of at least 1 on
    ranges that span several lines, [formatError] returns a string, as
    long as no string outgrows the engine: [Js.repeat] sets no limit. *)
Lemma formatError_returns (this : PyrightError) (contextLines : Z) :
  (forall r, range this = Some r ->
     0 <= character (start r) /\
     (line (start r) <> line (finish r) -> 1 <= character (finish r))) ->
  exists s, formatError this contextLines = Normal s.
Proof.
  intros Hrange. unfold formatError, formatErrorLines.
  destruct (range this) as [r|].
  - destruct (Hrange r eq_refl) as [Hs He].
    destruct (negb _); [|cbn [andThen]; eauto].
    destruct (forEach_returns r (rule this)
                (Z.max 0 (line (start r) - contextLines))
                (context this) 0 (pushFile [] (asDiagnostic this)) Hs He)
      as [out ->].
    cbn [andThen]. eauto.
  - destruct (Js.eqb _ _); cbn [andThen]; eauto.
Qed.

(** X20.  A range over several lines that ends at column 0 (or before),
    with the end line in the context: the padding of the indicator has a
    negative length and [formatError] throws the RangeError of
    [String.prototype.repeat]. *)
Lemma formatError_throws (this : PyrightError) (contextLines : Z)
    (r : Range) (text : jsstring) :
  let sl := Z.max 0 (line (start r) - contextLines) in
  range this = Some r ->
  line (start r) <> line (finish r) ->
  sl <= line (finish r) ->
  character (finish r) <= 0 ->
  nth_error (context this) (Z.to_nat (line (finish r) - sl)) = Some text ->
  exists msg, formatError this contextLines = Throw (RangeError msg).
Proof.
  intros sl Hr Hne Hl Hc Hnth.
  destruct (nth_error_split _ _ Hnth) as (pre & post & Hctx & Hlen).
  destruct (buildIndicator_negative (character (finish r) - 1) 1
              (rule this)) as [msg Hmsg]; [lia|].
  exists msg. unfold formatError, formatErrorLines. rewrite Hr, Hctx.
  rewrite length_app. cbn [List.length].
  replace (_ =? 0)%nat with false by (symmetry; apply Nat.eqb_neq; lia).
  cbn [negb]. fold sl.
  rewrite forEach_app, forEach_plain.
  - cbn [andThen forEach].
    rewrite forEachLine_multi, Hmsg by (try assumption; lia).
    reflexivity.
  - intros j Hj. split; intros Hx; [contradiction | lia].
Qed.

End FormatterCompletes.

(** ** [formatError] on the sample diagnostics *)

(** C2.  [formatError] does not return on a range that spans several lines
    and ends at column 0 when the end line is in the context: the padding
    of the indicator is [" ".repeat(-1)], which throws. *)
Theorem formatError_end_column_zero :
  range endColumnZeroError = Some (span 0 0 1 0) /\
  context endColumnZeroError = [lit "a"; lit "b"] /\
  @formatError plain endColumnZeroError 2 =
  Throw (RangeError (lit "Invalid count value: -1")).
Proof.
  repeat split.
Qed.

(** C1, as stated, fails.  The range lies on line 5 and the context is not
    empty, but it holds one line only, which [formatError] numbers from
    [max(0, 5 - 2) = 3]: no context line is line 5 and the report has no
    indicator line. *)
Lemma single_line_without_indicator :
  range shortContextError = Some (span 5 0 5 3) /\
  context shortContextError = [lit "x"] /\
  @formatErrorLines plain shortContextError 2 =
    Normal [lit "error a.py:6:1 " ++ [ARROW] ++
              lit " reportGeneralTypeIssues";
            lit "    4 " ++ [BAR] ++ lit " x";
            lit " help ~ bad"] /\
  forall lines,
    @formatErrorLines plain shortContextError 2 = Normal lines ->
    ~ In (@indicatorLine plain 0 3 sampleRule) lines.
Proof.
  repeat split.
  intros lines H. injection H as <-.
  intros [E|[E|[E|[]]]]; discriminate E.
Qed.

Lemma single_line_indicator_witness :
  @formatErrorLines plain singleLineError 2 =
  Normal [lit "error a.py:2:3 " ++ [ARROW] ++ lit " reportGeneralTypeIssues";
          lit "    1 " ++ [BAR] ++ lit " import os";
          lit ">   2 " ++ [BAR] ++ lit " x: int = 'a'";
          lit "      " ++ [BAR] ++ lit "   ^^^ reportGeneralTypeIssues";
          lit "    3 " ++ [BAR] ++ lit " ";
          lit "    4 " ++ [BAR] ++ lit " print(x)";
          lit " help ~ bad"].
Proof.
  exact (@single_line_indicator plain singleLineError 2 (span 1 2 1 5)
           (lit "x: int = 'a'") eq_refl eq_refl
           ltac:(simpl; lia) ltac:(simpl; lia) ltac:(lia) eq_refl).
Defined.



Lemma empty_context_header_only_witness :
  @formatError plain noContextError 2 =
  Normal (lit "error a.py:4:5 " ++ [ARROW] ++ lit " reportGeneralTypeIssues").
Proof.
  exact (proj2 (@empty_context_header_only plain noContextError 2
                  (span 3 4 3 9) eq_refl eq_refl)).
Defined.

Lemma import_cycle_rendering_witness :
  @formatErrorLines plain cycleError 2 =
  Normal [lit "warning pkg/a.py " ++ [ARROW] ++ lit " reportImportCycles";
          lit ">     " ++ [BAR] ++ lit "     fileA.py";
          lit ">     " ++ [BAR] ++ lit "     fileB.py";
          lit " help ~ cycle detected"].
Proof.
  exact (proj2 (@import_cycle_rendering plain cycleError 2 eq_refl eq_refl)
           eq_refl).
Defined.

(** ** What [getContext] loads *)

Lemma getContext_no_range (d : PyrightDiagnostic) (cl : Z) (w : World)
    (tr : list Event) :
  d_range d = None -> getContext d cl w tr = (Fulfilled [], tr).
Proof.
  intros Hr. unfold getContext, Async.tryCatch. rewrite Hr. reflexivity.
Qed.

Lemma getContext_read_fails (d : PyrightDiagnostic) (cl : Z) (w : World)
    (tr : list Event) (r : Range) (why : ReadFailure) :
  d_range d = Some r -> disk w (d_file d) = inl why ->
  getContext d cl w tr = (Fulfilled [], tr ++ [ReadFile (d_file d)]).
Proof.
  intros Hr Hdisk.
  unfold getContext, Async.tryCatch, Async.bind, Async.readFile.
  rewrite Hr, Hdisk. reflexivity.
Qed.

Lemma getContext_read (d : PyrightDiagnostic) (cl : Z) (w : World)
    (tr : list Event) (r : Range) (content : jsstring) :
  d_range d = Some r -> disk w (d_file d) = inr content ->
  getContext d cl w tr =
  (Fulfilled (slice (split LF content)
                (Z.max 0 (line (start r) - cl))
                (Z.min (Z.of_nat (List.length (split LF content)))
                       (line (finish r) + cl + 1))),
   tr ++ [ReadFile (d_file d)]).
Proof.
  intros Hr Hdisk.
  unfold getContext, Async.tryCatch, Async.bind, Async.readFile.
  rewrite Hr, Hdisk. reflexivity.
Qed.

(** [getContext] settles to [contextOf], whatever was issued before, and
    adds its reads to the trace. *)
Lemma getContext_settles (d : PyrightDiagnostic) (cl : Z) (w : World)
    (tr : list Event) :
  getContext d cl w tr = (Fulfilled (contextOf w d cl), tr ++ readsOf d).
Proof.
  unfold contextOf, readsOf.
  destruct (d_range d) as [r|] eqn:Hr.
  - destruct (disk w (d_file d)) as [why|content] eqn:Hdisk.
    + now rewrite !(getContext_read_fails d cl w _ r why Hr Hdisk).
    + now rewrite !(getContext_read d cl w _ r content Hr Hdisk).
  - rewrite !(getContext_no_range d cl w _ Hr), app_nil_r. reflexivity.
Qed.

(** C8 (as amended).  [getContext] never rejects; when the diagnostic has
    a range and the read of its file is rejected, for whatever reason (no
    such file, permission denied, a directory, any other), it is
    fulfilled with the empty array; when the diagnostic has no range it is
    fulfilled with the empty array and issues no operation at all. *)
Theorem getContext_swallows_failures (d : PyrightDiagnostic) (cl : Z)
    (w : World) (tr : list Event) :
  (exists ctx, fst (getContext d cl w tr) = Fulfilled ctx) /\
  (forall r why,
     d_range d = Some r -> disk w (d_file d) = inl why ->
     fst (getContext d cl w tr) = Fulfilled []) /\
  (d_range d = None -> getContext d cl w tr = (Fulfilled [], tr)).
Proof.
  split; [|split].
  - rewrite getContext_settles. simpl. eauto.
  - intros r why Hr Hdisk.
    now rewrite (getContext_read_fails d cl w tr r why Hr Hdisk).
  - apply getContext_no_range.
Qed.

Lemma getContext_swallows_failures_witness :
  fst (getContext (sampleDiagnostic (Some (span 3 4 3 9))) 2
         {| disk := fun _ => inl EACCES;
            run := fun _ _ => mkProcessResult (Some 1) [] [] |} []) =
    Fulfilled [] /\
  getContext (sampleDiagnostic None) 2 (sampleWorld (lit "x")) [] =
    (Fulfilled [], []).
Proof.
  split.
  - exact (proj1 (proj2 (getContext_swallows_failures
                           (sampleDiagnostic (Some (span 3 4 3 9))) 2
                           {| disk := fun _ => inl EACCES;
                              run := fun _ _ =>
                                mkProcessResult (Some 1) [] [] |} []))
             (span 3 4 3 9) EACCES eq_refl eq_refl).
  - exact (proj2 (proj2 (getContext_swallows_failures
                           (sampleDiagnostic None) 2
                           (sampleWorld (lit "x")) []))
             eq_refl).
Defined.

(** C8, as stated, fails for the encoding error.  A file whose bytes are
    not UTF-8 is read without a rejection, with U+FFFD in the place of the
    bad bytes: [getContext] is fulfilled with the lines of that text, not
    with the empty array. *)
Lemma getContext_reads_undecodable_file :
  let d := sampleDiagnostic (Some (span 0 0 0 1)) in
  let w := sampleWorld undecodableText in
  disk w (d_file d) =
    inr ([REPLACEMENT; REPLACEMENT] ++ lit "x" ++ [LF] ++ lit "y") /\
  fst (getContext d 2 w []) =
    Fulfilled [[REPLACEMENT; REPLACEMENT] ++ lit "x"; lit "y"] /\
  fst (getContext d 2 w []) <> Fulfilled [].
Proof.
  cbv zeta. repeat split. vm_compute. discriminate.
Qed.

(** C4 (as amended).  For a diagnostic with a range, non-negative line
    numbers and [contextLines], and a readable file, [getContext] is
    fulfilled with the lines of the file at the indices of
    [max(0, start.line - contextLines),
     min(totalLines, end.line + contextLines + 1)); when the range is in
    order and the file has more than [start.line] lines, this window is
    not empty and holds the start line, at the index
    [start.line - max(0, start.line - contextLines)]. *)
Theorem getContext_window (d : PyrightDiagnostic) (cl : Z) (w : World)
    (tr : list Event) (r : Range) (content : jsstring) :
  let lines := split LF content in
  let lo := Z.max 0 (line (start r) - cl) in
  let hi := Z.min (Z.of_nat (List.length lines))
                  (line (finish r) + cl + 1) in
  d_range d = Some r ->
  disk w (d_file d) = inr content ->
  0 <= cl -> 0 <= line (start r) -> 0 <= line (finish r) ->
  exists ctx,
    fst (getContext d cl w tr) = Fulfilled ctx /\
    List.length ctx = Z.to_nat (hi - lo) /\
    (forall j, (j < Z.to_nat (hi - lo))%nat ->
       nth_error ctx j = nth_error lines (Z.to_nat lo + j)) /\
    (line (start r) <= line (finish r) ->
     line (start r) < Z.of_nat (List.length lines) ->
     lo <= line (start r) < hi /\
     ctx <> [] /\
     exists text,
       nth_error ctx (Z.to_nat (line (start r) - lo)) = Some text /\
       nth_error lines (Z.to_nat (line (start r))) = Some text).
Proof.
  intros lines lo hi Hr Hdisk Hcl Hs He.
  rewrite (getContext_read d cl w tr r content Hr Hdisk).
  fold lines lo hi. cbn [fst].
  rewrite slice_window by (unfold lo, hi; lia).
  set (ctx := firstn _ _).
  assert (Hlen : List.length ctx = Z.to_nat (hi - lo)).
  { unfold ctx. rewrite length_firstn, length_skipn. unfold hi, lo. lia. }
  assert (Hnth : forall j, (j < Z.to_nat (hi - lo))%nat ->
            nth_error ctx j = nth_error lines (Z.to_nat lo + j)).
  { intros j Hj. now apply nth_error_window. }
  exists ctx. repeat split; try assumption.
  - unfold lo. lia.
  - unfold hi. lia.
  - intros ->. cbn [List.length] in Hlen. unfold hi, lo in Hlen. lia.
  - destruct (nth_error lines (Z.to_nat (line (start r)))) as [text|] eqn:E.
    + exists text. split; [|reflexivity].
      rewrite Hnth by (unfold hi, lo; lia).
      rewrite <- E. f_equal. unfold lo. lia.
    + apply nth_error_None in E. lia.
Qed.


Lemma getContext_window_witness :
  fst (getContext (sampleDiagnostic (Some (span 1 2 1 5))) 2
         (sampleWorld (numberedFile 6)) []) =
    Fulfilled [lit "0"; lit "1"; lit "2"; lit "3"] /\
  nth_error [lit "0"; lit "1"; lit "2"; lit "3"] 1 = Some (lit "1").
Proof.
  destruct (getContext_window (sampleDiagnostic (Some (span 1 2 1 5))) 2
              (sampleWorld (numberedFile 6)) [] (span 1 2 1 5)
              (numberedFile 6) eq_refl eq_refl
              ltac:(lia) ltac:(simpl; lia) ltac:(simpl; lia))
    as (ctx & Hctx & _).
  split; [|reflexivity].
  rewrite Hctx. vm_compute in Hctx. injection Hctx as <-. reflexivity.
Defined.

(** C4, as stated, fails in its last part.  The file has 9 lines and the
    range lies on line 10: the window is [8, 9), the loaded context is
    the one line 8, not empty, and line 10 is not in the window. *)
Lemma getContext_window_misses_start_line :
  let d := sampleDiagnostic (Some (span 10 0 10 3)) in
  let lines := split LF (numberedFile 9) in
  let lo := Z.max 0 (10 - 2) in
  let hi := Z.min (Z.of_nat (List.length lines)) (10 + 2 + 1) in
  List.length lines = 9%nat /\
  fst (getContext d 2 (sampleWorld (numberedFile 9)) []) =
    Fulfilled [lit "8"] /\
  (lo, hi) = (8, 9) /\
  ~ (lo <= 10 < hi).
Proof.
  cbv zeta. repeat split. vm_compute. intros [_ H]. discriminate H.
Qed.

(** C7 (as amended).  For a range on line 10 and two context lines, on a
    file of 20 lines, [getContext] is fulfilled with 5 lines, the lines
    8 to 12 of the file: two before, line 10, two after. *)
Theorem getContext_line_10 (d : PyrightDiagnostic) (w : World)
    (tr : list Event) (r : Range) (content : jsstring) :
  d_range d = Some r ->
  line (start r) = 10 -> line (finish r) = 10 ->
  disk w (d_file d) = inr content ->
  List.length (split LF content) = 20%nat ->
  exists l8 l9 l10 l11 l12,
    fst (getContext d 2 w tr) = Fulfilled [l8; l9; l10; l11; l12] /\
    nth_error (split LF content) 8 = Some l8 /\
    nth_error (split LF content) 9 = Some l9 /\
    nth_error (split LF content) 10 = Some l10 /\
    nth_error (split LF content) 11 = Some l11 /\
    nth_error (split LF content) 12 = Some l12.
Proof.
  intros Hr Hs He Hdisk Hlen.
  rewrite (getContext_read d 2 w tr r content Hr Hdisk).
  rewrite Hs, He, Hlen. cbn [fst].
  rewrite slice_window by lia.
  change (Z.to_nat (Z.max 0 (10 - 2))) with 8%nat.
  change (Z.to_nat (Z.min (Z.of_nat 20) (10 + 2 + 1) - Z.max 0 (10 - 2)))
    with 5%nat.
  set (ls := split LF content) in *. clearbody ls.
  do 13 (destruct ls as [|? ls]; [discriminate Hlen|]).
  cbn [skipn firstn nth_error]. do 5 eexists. repeat split.
Qed.

Lemma getContext_line_10_witness :
  fst (getContext (sampleDiagnostic (Some (span 10 4 10 7))) 2
         (sampleWorld (numberedFile 20)) []) =
  Fulfilled [lit "8"; lit "9"; lit "10"; lit "11"; lit "12"].
Proof.
  destruct (getContext_line_10 (sampleDiagnostic (Some (span 10 4 10 7)))
              (sampleWorld (numberedFile 20)) [] (span 10 4 10 7)
              (numberedFile 20) eq_refl eq_refl eq_refl eq_refl eq_refl)
    as (l8 & l9 & l10 & l11 & l12 & H & _).
  rewrite H. vm_compute in H. injection H as <- <- <- <- <-. reflexivity.
Defined.

(** C7, as stated, fails: on a file of 20 lines the context of a range on
    line 10 has 5 lines, 8 to 12, not 6; line 13 is not loaded. *)
Lemma getContext_line_10_not_six_lines :
  let d := sampleDiagnostic (Some (span 10 4 10 7)) in
  let w := sampleWorld (numberedFile 20) in
  List.length (split LF (numberedFile 20)) = 20%nat /\
  fst (getContext d 2 w []) =
    Fulfilled [lit "8"; lit "9"; lit "10"; lit "11"; lit "12"] /\
  List.length (contextOf w d 2) <> 6%nat /\
  ~ In (lit "13") (contextOf w d 2).
Proof.
  cbv zeta. repeat split.
  - vm_compute. discriminate.
  - vm_compute. intros [E|[E|[E|[E|[E|[]]]]]]; discriminate E.
Qed.

(** ** Properties of [check] *)

Section CheckClaims.

Variable JSON_parse : jsstring -> option (PyrightOutput PyrightDiagnostic).

(** [Promise.all] over the diagnostics: every element is wrapped with its
    own context, in the order of the list, and the reads are issued in
    that order. *)
Lemma all_contexts (ds : list PyrightDiagnostic) (w : World)
    (tr : list Event) :
  Async.all
    (fun diagnostic =>
       await! context := getContext diagnostic 2 in
       Async.ret (new_PyrightError diagnostic context)) ds w tr =
  (Fulfilled (map (fun d => new_PyrightError d (contextOf w d 2)) ds),
   tr ++ flat_map readsOf ds).
Proof.
  revert tr; induction ds as [|d ds IH]; intros tr; cbn [Async.all map flat_map].
  - unfold Async.ret. now rewrite app_nil_r.
  - unfold Async.bind at 1 2. rewrite getContext_settles.
    unfold Async.ret at 1. unfold Async.bind. rewrite IH.
    unfold Async.ret. now rewrite app_assoc.
Qed.

(** C9.  When the checker exits with status 0, [check] resolves to the
    empty result with [filesAnalyzed] the number of file targets, 1 for a
    single path and the length of the array for an array of paths,
    whatever the checker wrote and whatever [JSON.parse] would make of it;
    the one operation issued is the start of the checker on these
    targets. *)
Theorem check_exit_zero (files : jsstring + list jsstring)
    (options : list jsstring) (w : World) (tr : list Event) :
  let targets :=
    match files with
    | inl one => [one]
    | inr several => several
    end in
  code (run w (lit "pyright") ([lit "--outputjson"] ++ options ++ targets)) =
    Some 0 ->
  check JSON_parse files options w tr =
  (Fulfilled
     {| version := [];
        time := [];
        generalDiagnostics := [];
        summary :=
          {| filesAnalyzed :=
               match files with
               | inl _ => 1
               | inr several => Z.of_nat (List.length several)
               end;
             errorCount := 0; warningCount := 0; informationCount := 0;
             timeInSec := 0 |} |},
   tr ++ [Spawn (lit "pyright")
            ([lit "--outputjson"] ++ options ++ targets)]).
Proof.
  intros targets Hcode. unfold check, Async.bind, Async.spawn.
  destruct files as [one|several]; cbn [fileList] in *;
    subst targets; rewrite Hcode; reflexivity.
Qed.

(** C10.  When the checker exits with another status and its output
    parses, [check] resolves to the parsed output with [version], [time]
    and [summary] unchanged and with every diagnostic wrapped, together
    with its loaded context, at the place it had in the parsed list. *)
Theorem check_wraps_in_order (files : jsstring + list jsstring)
    (options : list jsstring) (w : World) (tr : list Event)
    (output : PyrightOutput PyrightDiagnostic) :
  let pyright := run w (lit "pyright") (argsOf files options) in
  code pyright <> Some 0 ->
  JSON_parse (stdout pyright) = Some output ->
  exists result,
    fst (check JSON_parse files options w tr) = Fulfilled result /\
    result =
      {| version := version output;
         time := time output;
         generalDiagnostics :=
           map (fun d => new_PyrightError d (contextOf w d 2))
               (generalDiagnostics output);
         summary := summary output |} /\
    List.length (generalDiagnostics result) =
      List.length (generalDiagnostics output) /\
    forall i d,
      nth_error (generalDiagnostics output) i = Some d ->
      nth_error (generalDiagnostics result) i =
        Some (new_PyrightError d (contextOf w d 2)) /\
      diagnostic (new_PyrightError d (contextOf w d 2)) = d /\
      context (new_PyrightError d (contextOf w d 2)) = contextOf w d 2.
Proof.
  intros pyright Hcode Hparse.
  eexists. split; [|split; [reflexivity|split]].
  - unfold check, Async.bind at 1, Async.spawn.
    fold (argsOf files options). fold pyright.
    assert (Hbody :
      Async.tryCatch
        (match JSON_parse (stdout pyright) with
         | None => Async.reject (SyntaxError (lit "Unexpected token"))
         | Some output =>
             await! diagnosticsWithContext :=
               Async.all
                 (fun diagnostic =>
                    await! context := getContext diagnostic 2 in
                    Async.ret (new_PyrightError diagnostic context))
                 (generalDiagnostics output) in
             Async.ret
               {| version := version output;
                  time := time output;
                  generalDiagnostics := diagnosticsWithContext;
                  summary := summary output |}
         end)
        (Async.reject
           (Error (lit "Failed to parse pyright output: " ++
                   orElse (stderr pyright) (stdout pyright))))
        w (tr ++ [Spawn (lit "pyright") (argsOf files options)]) =
      (Fulfilled
         {| version := version output;
            time := time output;
            generalDiagnostics :=
              map (fun d => new_PyrightError d (contextOf w d 2))
                  (generalDiagnostics output);
            summary := summary output |},
       (tr ++ [Spawn (lit "pyright") (argsOf files options)]) ++
       flat_map readsOf (generalDiagnostics output))).
    { rewrite Hparse. unfold Async.tryCatch, Async.bind.
      rewrite all_contexts. reflexivity. }
    destruct (code pyright) as [[|p|p]|]; try (now rewrite Hbody).
    now elim Hcode.
  - cbn [generalDiagnostics]. apply length_map.
  - intros i d Hd. cbn [generalDiagnostics].
    rewrite nth_error_map, Hd. repeat split.
Qed.

End CheckClaims.

(** ** [check] on sample runs *)

Lemma check_exit_zero_witness :
  check sampleParse (inr [lit "a.py"; lit "b.py"]) [lit "--stats"]
    quietWorld [] =
  (Fulfilled
     {| version := []; time := []; generalDiagnostics := [];
        summary := mkSummary 2 0 0 0 0 |},
   [Spawn (lit "pyright")
      [lit "--outputjson"; lit "--stats"; lit "a.py"; lit "b.py"]]) /\
  check sampleParse (inl (lit "src")) [] quietWorld [] =
  (Fulfilled
     {| version := []; time := []; generalDiagnostics := [];
        summary := mkSummary 1 0 0 0 0 |},
   [Spawn (lit "pyright") [lit "--outputjson"; lit "src"]]) /\
  check sampleParse (inr []) [] quietWorld [] =
  (Fulfilled
     {| version := []; time := []; generalDiagnostics := [];
        summary := mkSummary 0 0 0 0 0 |},
   [Spawn (lit "pyright") [lit "--outputjson"]]).
Proof.
  split; [|split].
  - exact (check_exit_zero sampleParse (inr [lit "a.py"; lit "b.py"])
             [lit "--stats"] quietWorld [] eq_refl).
  - exact (check_exit_zero sampleParse (inl (lit "src")) [] quietWorld []
             eq_refl).
  - exact (check_exit_zero sampleParse (inr []) [] quietWorld [] eq_refl).
Defined.

Lemma check_wraps_in_order_witness :
  fst (check sampleParse (inl (lit "a.py")) []
         (sampleWorld (numberedFile 6)) []) =
  Fulfilled
    {| version := lit "1.1.400";
       time := lit "1700000000000";
       generalDiagnostics :=
         [new_PyrightError (sampleDiagnostic (Some (span 1 2 1 5)))
            [lit "0"; lit "1"; lit "2"; lit "3"];
          new_PyrightError (sampleDiagnostic None) []];
       summary := mkSummary 1 2 0 0 1 |}.
Proof.
  destruct (check_wraps_in_order sampleParse (inl (lit "a.py")) []
              (sampleWorld (numberedFile 6)) [] sampleOutput
              ltac:(discriminate) eq_refl)
    as (result & Hcheck & Hresult & _).
  rewrite Hcheck, Hresult. reflexivity.
Defined.

(** ** More on the formatter: the highlight and the columns *)

Lemma clamp_range (len i : Z) : 0 <= len -> 0 <= clamp len i <= len.
Proof. unfold clamp. lia. Qed.

(** The three pieces [formatError] cuts a line into put the line back
    together, provided the cut points are in order once clamped. *)
Lemma substring_partition (text : jsstring) (a b : Z) :
  clamp (Js.length text) a <= clamp (Js.length text) b ->
  substring text 0 a ++ substring text a b ++ substringFrom text b = text.
Proof.
  intros Hab. unfold substringFrom, substring.
  assert (HL : 0 <= Js.length text) by (unfold Js.length; lia).
  pose proof (clamp_range (Js.length text) a HL) as Ha.
  pose proof (clamp_range (Js.length text) b HL) as Hb.
  replace (clamp (Js.length text) 0) with 0 by (unfold clamp; lia).
  replace (clamp (Js.length text) (Js.length text)) with (Js.length text)
    by (unfold clamp; lia).
  set (a' := clamp (Js.length text) a) in *.
  set (b' := clamp (Js.length text) b) in *.
  rewrite (Z.min_l 0 a'), (Z.max_r 0 a'), (Z.min_l a' b'), (Z.max_r a' b'),
    (Z.min_l b' (Js.length text)), (Z.max_r b' (Js.length text)) by lia.
  change (Z.to_nat 0) with 0%nat. cbn [skipn].
  rewrite (firstn_all2 (n := Z.to_nat (Js.length text - b')))
    by (rewrite length_skipn; unfold Js.length; lia).
  replace (Z.to_nat (a' - 0)) with (Z.to_nat a') by lia.
  replace (skipn (Z.to_nat b') text)
    with (skipn (Z.to_nat (b' - a')) (skipn (Z.to_nat a') text))
    by (rewrite skipn_skipn; f_equal; lia).
  now rewrite !firstn_skipn.
Qed.

(** X1.  With the colours off, a numbered context line is the marker, the
    line number, the separator and the source line itself: the highlight
    cuts the line in three and puts it back unchanged, provided that a
    range on one line has its end column at or after its start column. *)
Theorem highlight_keeps_text (r : Range) (sl i : Z) (text : jsstring) :
  (line (start r) = line (finish r) ->
   character (start r) <= character (finish r)) ->
  @numbered plain r sl i text =
  (if (line (start r) <=? sl + i) && (sl + i <=? line (finish r))
   then lit ">" else lit " ") ++
  padStart (ofNumber (sl + i + 1)) 4 ++ lit " " ++ [BAR] ++ lit " " ++ text.
Proof.
  intros Hcols. unfold numbered. cbn [dim red plain].
  destruct ((line (start r) <=? sl + i) && (sl + i <=? line (finish r)));
    [|reflexivity].
  rewrite substring_partition; [reflexivity|].
  assert (HL : 0 <= Js.length text) by (unfold Js.length; lia).
  destruct (Z.eqb_spec (sl + i) (line (start r))) as [Hs|Hs];
    destruct (Z.eqb_spec (sl + i) (line (finish r))) as [He|He];
    unfold clamp; lia.
Qed.

Lemma highlight_keeps_text_witness :
  @numbered plain (span 1 2 1 5) 0 1 (lit "x: int = 'a'") =
  lit ">   2 " ++ [BAR] ++ lit " x: int = 'a'".
Proof.
  exact (highlight_keeps_text (span 1 2 1 5) 0 1 (lit "x: int = 'a'")
           ltac:(simpl; lia)).
Defined.

(** X21.  With the colours off, a range on one line whose end column
    lies before its start column (both inside the line) is rendered with
    the characters between the two columns three times: once at the end of
    the part before the highlight, once as the highlight and once at the
    start of the part after it. *)
Theorem inverted_columns_repeat_text (r : Range) (sl i : Z)
    (text : jsstring) :
  let sc := character (start r) in
  let ec := character (finish r) in
  line (start r) = line (finish r) ->
  sl + i = line (start r) ->
  0 <= ec < sc -> sc <= Js.length text ->
  @numbered plain r sl i text =
  lit ">" ++ padStart (ofNumber (sl + i + 1)) 4 ++
  lit " " ++ [BAR] ++ lit " " ++
  firstn (Z.to_nat sc) text ++
  firstn (Z.to_nat (sc - ec)) (skipn (Z.to_nat ec) text) ++
  skipn (Z.to_nat ec) text.
Proof.
  intros sc ec Hone Hi Hcols Hlen. unfold numbered. cbn [dim red plain].
  rewrite Hi, <- Hone, Z.leb_refl, Z.eqb_refl. cbn [andb].
  fold sc ec. do 5 f_equal.
  unfold substringFrom, substring, clamp.
  set (L := Js.length text) in *.
  replace (Z.min (Z.max 0 0) L) with 0 by lia.
  replace (Z.min (Z.max sc 0) L) with sc by lia.
  replace (Z.min (Z.max ec 0) L) with ec by lia.
  replace (Z.min (Z.max L 0) L) with L by lia.
  replace (Z.min 0 sc) with 0 by lia.
  replace (Z.max 0 sc) with sc by lia.
  replace (Z.min sc ec) with ec by lia.
  replace (Z.max sc ec) with sc by lia.
  replace (Z.min ec L) with ec by lia.
  replace (Z.max ec L) with L by lia.
  change (Z.to_nat 0) with 0%nat. cbn [skipn].
  rewrite Z.sub_0_r.
  now rewrite (firstn_all2 (n := Z.to_nat (L - ec)))
    by (rewrite length_skipn; unfold L, Js.length; lia).
Qed.

Lemma inverted_columns_repeat_text_witness :
  @numbered plain (span 0 4 0 2) 0 0 (lit "abcdef") =
  lit ">   1 " ++ [BAR] ++ lit " abcdcdcdef".
Proof.
  exact (inverted_columns_repeat_text (span 0 4 0 2) 0 0 (lit "abcdef")
           eq_refl eq_refl ltac:(simpl; lia)
           ltac:(vm_compute; discriminate)).
Defined.

Lemma padStart_width (n : Z) :
  1 <= n <= 9999 -> List.length (padStart (ofNumber n) 4) = 4%nat.
Proof.
  intros Hn.
  assert (Hall : forallb
            (fun k => Nat.eqb
               (List.length (padStart (ofNumber (Z.of_nat k)) 4)) 4)
            (seq 1 (Z.to_nat 9999)) = true) by (vm_compute; reflexivity).
  rewrite forallb_forall in Hall.
  specialize (Hall (Z.to_nat n)).
  rewrite Z2Nat.id in Hall by lia.
  apply Nat.eqb_eq, Hall, in_seq. lia.
Qed.

(** X2.  With the colours off and line numbers up to 9999, the carets of
    the indicator of a range on one line stand in the columns of the
    characters [start.character] to [end.character - 1] of the source line
    above them (one caret under [start.character] for an empty range):
    both lines have a margin of 8 code units. *)
Theorem carets_under_range (r : Range) (sl i : Z) (text rule : jsstring)
    (j : Z) :
  let pad := character (start r) in
  let n := Z.max 1 (character (finish r) - character (start r)) in
  line (start r) = line (finish r) ->
  sl + i = line (start r) ->
  0 <= sl + i < 9999 ->
  0 <= character (start r) <= character (finish r) ->
  pad <= j < pad + n ->
  nth_error (@indicatorLine plain pad n rule) (8 + Z.to_nat j) =
    Some CARET /\
  nth_error (@numbered plain r sl i text) (8 + Z.to_nat j) =
    nth_error text (Z.to_nat j).
Proof.
  intros pad n Hone Hi Hnum Hcols Hj. split.
  - unfold indicatorLine, gutter. cbn [dim red plain].
    change (lit "      " ++ [BAR] ++ lit " " ++ ?s)
      with ((lit "      " ++ [BAR] ++ lit " ") ++ s).
    rewrite nth_error_app2 by (cbn; lia).
    replace (8 + Z.to_nat j - _)%nat with (Z.to_nat j) by (cbn; lia).
    rewrite nth_error_app2 by (rewrite repeat_length; lia).
    rewrite repeat_length, nth_error_app1 by (rewrite repeat_length; lia).
    apply nth_error_repeat. lia.
  - unfold numbered. cbn [dim red plain].
    replace ((line (start r) <=? sl + i) && (sl + i <=? line (finish r)))
      with true
      by (symmetry; apply andb_true_iff; split; apply Z.leb_le; lia).
    replace (sl + i =? line (start r)) with true
      by (symmetry; apply Z.eqb_eq; lia).
    replace (sl + i =? line (finish r)) with true
      by (symmetry; apply Z.eqb_eq; lia).
    rewrite substring_partition
      by (pose proof (Zle_0_nat (List.length text));
          unfold clamp, Js.length; lia).
    set (number := padStart (ofNumber (sl + i + 1)) 4).
    assert (Hwidth : List.length number = 4%nat)
      by (apply padStart_width; lia).
    change (lit ">" ++ number ++ lit " " ++ [BAR] ++ lit " " ++ text)
      with (lit ">" ++ number ++ (lit " " ++ [BAR] ++ lit " ") ++ text).
    rewrite !app_assoc.
    rewrite nth_error_app2; rewrite !length_app, Hwidth; cbn; [|lia].
    f_equal. lia.
Qed.

Lemma carets_under_range_witness :
  nth_error (@indicatorLine plain 2 3 sampleRule) 10 = Some CARET /\
  nth_error (@numbered plain (span 1 2 1 5) 0 1 (lit "x: int = 'a'")) 10 =
    Some 32%N.
Proof.
  exact (carets_under_range (span 1 2 1 5) 0 1 (lit "x: int = 'a'")
           sampleRule 2 eq_refl eq_refl ltac:(simpl; lia)
           ltac:(simpl; lia) ltac:(simpl; lia)).
Defined.

(** ** More on the formatter: the shape of a report *)

Section ReportShape.

Context {K : Kleur}.





(** X4.  When no context line gets the number of the line to mark (the
    start line of a range on one line, the end line otherwise), the report
    is the header, the numbered context lines and the help line: there is
    no indicator, and no exception whatever the columns are. *)
Theorem report_without_indicator (this : PyrightError) (contextLines : Z)
    (r : Range) :
  let sl := Z.max 0 (line (start r) - contextLines) in
  let target := if line (start r) =? line (finish r)
                then line (start r) else line (finish r) in
  range this = Some r ->
  context this <> [] ->
  target < sl \/ sl + Z.of_nat (List.length (context this)) <= target ->
  formatErrorLines this contextLines =
  Normal ([headerLine (severity this) (place (file this) r) (rule this)] ++
          numberedFrom r sl 0 (context this) ++
          [helpLine red (message this)]).
Proof.
  intros sl target Hr Hctx Hout. unfold formatErrorLines.
  rewrite Hr, pushFile_header.
  cbn [asDiagnostic d_range d_severity d_file d_rule]. rewrite Hr.
  destruct (context this) as [|c0 ctx]; [contradiction|].
  cbn [List.length Nat.eqb negb]. fold sl.
  rewrite forEach_plain.
  - cbn [andThen]. unfold pushHelp, helpLine, place.
    now rewrite <- !app_assoc.
  - intros j Hj. unfold target in Hout.
    destruct (Z.eqb_spec (line (start r)) (line (finish r)));
      split; intros; try contradiction; lia.
Qed.



End ReportShape.

Lemma split_length (sep : N) (s : jsstring) :
  List.length (split sep s) = S (count_occ N.eq_dec s sep).
Proof.
  induction s as [|c s IH]; [reflexivity|].
  cbn [split count_occ].
  destruct (N.eqb_spec c sep) as [->|Hne].
  - destruct (N.eq_dec sep sep) as [_|?]; [|contradiction].
    cbn [List.length]. now rewrite IH.
  - destruct (N.eq_dec c sep) as [?|_]; [contradiction|].
    destruct (split sep s) as [|l ls]; cbn [List.length] in *;
      [discriminate IH | exact IH].
Qed.

(** X7.  The report of an import cycle has the header, the help line and
    one member line for every newline of the message, whatever stands
    between the newlines: a message that ends in a newline gives an empty
    member line. *)
Theorem import_cycle_line_count (K : Kleur) (this : PyrightError)
    (contextLines : Z) :
  range this = None ->
  rule this = lit "reportImportCycles" ->
  exists lines,
    formatErrorLines this contextLines = Normal lines /\
    List.length lines = (2 + count_occ N.eq_dec (message this) LF)%nat.
Proof.
  intros Hr Hrule. unfold formatErrorLines.
  rewrite Hr, (proj2 (eqb_eq _ _) Hrule), fold_left_push.
  eexists. split; [reflexivity|].
  unfold pushHelp, pushFile.
  rewrite !length_app, length_map. cbn [List.length].
  pose proof (split_length LF (message this)) as Hlen.
  destruct (split LF (message this)); cbn [tl List.length] in *; lia.
Qed.

(** ** More on [getContext] *)

Lemma in_firstn {A : Type} (x : A) (n : nat) (l : list A) :
  In x (firstn n l) -> In x l.
Proof.
  intros H. rewrite <- (firstn_skipn n l). apply in_or_app. now left.
Qed.

Lemma in_skipn {A : Type} (x : A) (n : nat) (l : list A) :
  In x (skipn n l) -> In x l.
Proof.
  intros H. rewrite <- (firstn_skipn n l). apply in_or_app. now right.
Qed.

Lemma in_slice {A : Type} (x : A) (l : list A) (a b : Z) :
  In x (slice l a b) -> In x l.
Proof.
  unfold slice. intros H. now apply in_firstn, in_skipn in H.
Qed.

(** No piece of a split holds the separator. *)
Lemma split_no_sep (sep : N) (s l : jsstring) :
  In l (split sep s) -> ~ In sep l.
Proof.
  revert l; induction s as [|c s IH]; intros l; cbn [split].
  - intros [<-|[]] [].
  - destruct (N.eqb_spec c sep) as [->|Hne].
    + intros [<-|H]; [intros []|now apply IH].
    + destruct (split sep s) as [|l0 ls] eqn:E.
      * intros [<-|[]] [H|[]]. congruence.
      * intros [<-|H].
        -- intros [H|H]; [congruence|]. apply (IH l0); [now left|exact H].
        -- apply IH. now right.
Qed.

Lemma contextOf_no_range (w : World) (d : PyrightDiagnostic) (cl : Z) :
  d_range d = None -> contextOf w d cl = [].
Proof.
  intros Hr. unfold contextOf. now rewrite getContext_no_range.
Qed.

Lemma contextOf_unread (w : World) (d : PyrightDiagnostic) (cl : Z)
    (why : ReadFailure) :
  disk w (d_file d) = inl why -> contextOf w d cl = [].
Proof.
  intros Hdisk. unfold contextOf.
  destruct (d_range d) as [r|] eqn:Hr.
  - now rewrite (getContext_read_fails d cl w [] r why Hr Hdisk).
  - now rewrite getContext_no_range.
Qed.

Lemma contextOf_read (w : World) (d : PyrightDiagnostic) (cl : Z)
    (r : Range) (content : jsstring) :
  d_range d = Some r -> disk w (d_file d) = inr content ->
  contextOf w d cl =
  slice (split LF content)
    (Z.max 0 (line (start r) - cl))
    (Z.min (Z.of_nat (List.length (split LF content)))
           (line (finish r) + cl + 1)).
Proof.
  intros Hr Hdisk. unfold contextOf.
  now rewrite (getContext_read d cl w [] r content Hr Hdisk).
Qed.

(** The number of loaded lines, with indices that are not negative. *)
Lemma contextOf_length (w : World) (d : PyrightDiagnostic) (cl : Z)
    (r : Range) (content : jsstring) :
  d_range d = Some r -> disk w (d_file d) = inr content ->
  0 <= line (finish r) + cl + 1 ->
  List.length (contextOf w d cl) =
  Z.to_nat (Z.min (Z.of_nat (List.length (split LF content)))
                  (line (finish r) + cl + 1) -
            Z.max 0 (line (start r) - cl)).
Proof.
  intros Hr Hdisk He. rewrite (contextOf_read w d cl r content Hr Hdisk).
  rewrite slice_window by lia.
  rewrite length_firstn, length_skipn. lia.
Qed.

(** X8.  For a diagnostic with a range, line numbers and [contextLines]
    that are not negative, [getContext] loads at most
    [end.line - start.line + 2 * contextLines + 1] lines, whatever the
    file holds and whether or not it can be read. *)
Theorem context_length_bound (w : World) (d : PyrightDiagnostic) (cl : Z)
    (r : Range) :
  d_range d = Some r ->
  0 <= cl -> 0 <= line (start r) -> 0 <= line (finish r) ->
  Z.of_nat (List.length (contextOf w d cl)) <=
  Z.max 0 (line (finish r) - line (start r) + 2 * cl + 1).
Proof.
  intros Hr Hcl Hs He.
  destruct (disk w (d_file d)) as [why|content] eqn:Hdisk.
  - rewrite (contextOf_unread w d cl why Hdisk). cbn. lia.
  - rewrite (contextOf_length w d cl r content Hr Hdisk) by lia. lia.
Qed.

(** X9.  No line that [getContext] loads holds a newline: in a report,
    every context line is one line of the terminal. *)
Theorem context_lines_have_no_newline (w : World) (d : PyrightDiagnostic)
    (cl : Z) (text : jsstring) :
  In text (contextOf w d cl) -> ~ In LF text.
Proof.
  intros Hin.
  destruct (d_range d) as [r|] eqn:Hr;
    [|rewrite contextOf_no_range in Hin by assumption; destruct Hin].
  destruct (disk w (d_file d)) as [why|content] eqn:Hdisk;
    [rewrite (contextOf_unread w d cl why Hdisk) in Hin; destruct Hin|].
  rewrite (contextOf_read w d cl r content Hr Hdisk) in Hin.
  apply in_slice in Hin. now apply split_no_sep in Hin.
Qed.

(** X10.  [getContext] and [formatError] with the same [contextLines], on
    a range on one line of a file that has this line: the number printed
    beside a context line is the number of that line in the file, and the
    indicator stands directly under the line of the range. *)
Theorem loaded_context_is_marked (K : Kleur) (w : World)
    (d : PyrightDiagnostic) (cl : Z) (r : Range) (content : jsstring) :
  let this := new_PyrightError d (contextOf w d cl) in
  let lines := split LF content in
  let sl := Z.max 0 (line (start r) - cl) in
  let k := Z.to_nat (line (start r) - sl) in
  d_range d = Some r ->
  disk w (d_file d) = inr content ->
  line (start r) = line (finish r) ->
  0 <= cl -> 0 <= line (start r) -> 0 <= character (start r) ->
  line (start r) < Z.of_nat (List.length lines) ->
  (forall i t, nth_error (contextOf w d cl) i = Some t ->
               nth_error lines (Z.to_nat sl + i) = Some t) /\
  exists text,
    nth_error lines (Z.to_nat (line (start r))) = Some text /\
    formatErrorLines this cl =
    Normal ([headerLine (d_severity d) (place (d_file d) r) (d_rule d)] ++
            numberedFrom r sl 0 (firstn k (contextOf w d cl)) ++
            [numbered r sl (Z.of_nat k) text;
             indicatorLine (character (start r))
               (Z.max 1 (character (finish r) - character (start r)))
               (d_rule d)] ++
            numberedFrom r sl (Z.of_nat (S k))
              (skipn (S k) (contextOf w d cl)) ++
            [helpLine red (d_message d)]).
Proof.
  intros this lines sl k Hr Hdisk Hone Hcl Hs Hc Hlen.
  assert (Hctx : contextOf w d cl =
            firstn (Z.to_nat (Z.min (Z.of_nat (List.length lines))
                                    (line (finish r) + cl + 1) - sl))
                   (skipn (Z.to_nat sl) lines)).
  { rewrite (contextOf_read w d cl r content Hr Hdisk).
    apply slice_window; lia. }
  assert (Hat : forall i t, nth_error (contextOf w d cl) i = Some t ->
                  nth_error lines (Z.to_nat sl + i) = Some t).
  { intros i t Hi. rewrite Hctx in Hi.
    rewrite nth_error_firstn in Hi.
    destruct (Nat.ltb i _); [|discriminate Hi].
    now rewrite nth_error_skipn in Hi. }
  split; [exact Hat|].
  destruct (nth_error (contextOf w d cl) k) as [text|] eqn:Hk.
  - exists text. split.
    + rewrite <- (Hat k text Hk). f_equal. unfold k, sl. lia.
    + apply (formatErrorLines_one_indicator this cl r k text _ Hr Hk).
      * fold sl. rewrite (proj2 (Z.eqb_eq _ _) Hone). unfold k, sl. lia.
      * intros o. fold sl. cbn [rule this new_PyrightError].
        apply forEachLine_single; [assumption|unfold k, sl; lia|assumption].
  - apply nth_error_None in Hk.
    rewrite (contextOf_length w d cl r content Hr Hdisk) in Hk by lia.
    fold lines sl in Hk. unfold k, sl in Hk. lia.
Qed.

(** X11.  [check] loads two context lines on each side, and [main] passes
    the value of [-c] to [formatError].  With a value of 5 or more, a
    range on one line whose line number is at least that value gets no
    indicator: the loaded lines, five at most, are numbered from
    [start.line - contextLines] and none of them gets the number of the
    start line. *)
Theorem wider_context_loses_indicator (K : Kleur) (w : World)
    (d : PyrightDiagnostic) (cl : Z) (r : Range) :
  let this := new_PyrightError d (contextOf w d 2) in
  d_range d = Some r ->
  line (start r) = line (finish r) ->
  5 <= cl <= line (start r) ->
  contextOf w d 2 <> [] ->
  formatErrorLines this cl =
  Normal ([headerLine (d_severity d) (place (d_file d) r) (d_rule d)] ++
          numberedFrom r (line (start r) - cl) 0 (contextOf w d 2) ++
          [helpLine red (d_message d)]).
Proof.
  intros this Hr Hone Hcl Hctx.
  assert (Hlen : Z.of_nat (List.length (contextOf w d 2)) <= 5).
  { destruct (disk w (d_file d)) as [why|content] eqn:Hdisk.
    - rewrite (contextOf_unread w d 2 why Hdisk). cbn. lia.
    - rewrite (contextOf_length w d 2 r content Hr Hdisk) by lia. lia. }
  subst this. unfold formatErrorLines.
  cbn [range new_PyrightError context rule message].
  rewrite Hr, pushFile_header.
  cbn [asDiagnostic d_range d_severity d_file d_rule range severity file
       rule new_PyrightError]. rewrite Hr.
  destruct (contextOf w d 2) as [|c0 ctx] eqn:E; [contradiction|].
  cbn [List.length Nat.eqb negb].
  rewrite (Z.max_r 0 (line (start r) - cl)) by lia.
  rewrite forEach_plain.
  - cbn [andThen]. unfold pushHelp, helpLine, place.
    now rewrite <- !app_assoc.
  - intros j Hj. split; intros; [|contradiction].
    cbn [List.length] in *. lia.
Qed.

(** ** More on [check] *)

Section CheckRuns.

Variable JSON_parse : jsstring -> option (PyrightOutput PyrightDiagnostic).

(** The three ways a run of [check] goes. *)

Lemma check_on_exit_zero (files : jsstring + list jsstring)
    (options : list jsstring) (w : World) (tr : list Event) :
  code (run w (lit "pyright") (argsOf files options)) = Some 0 ->
  check JSON_parse files options w tr =
  (Fulfilled
     {| version := []; time := []; generalDiagnostics := [];
        summary :=
          mkSummary (Z.of_nat (List.length (fileList files))) 0 0 0 0 |},
   tr ++ [Spawn (lit "pyright") (argsOf files options)]).
Proof.
  intros Hcode. unfold check, Async.bind, Async.spawn.
  fold (argsOf files options). rewrite Hcode. reflexivity.
Qed.

Lemma check_on_parsed (files : jsstring + list jsstring)
    (options : list jsstring) (w : World) (tr : list Event)
    (output : PyrightOutput PyrightDiagnostic) :
  let pyright := run w (lit "pyright") (argsOf files options) in
  code pyright <> Some 0 ->
  JSON_parse (stdout pyright) = Some output ->
  check JSON_parse files options w tr =
  (Fulfilled
     {| version := version output;
        time := time output;
        generalDiagnostics :=
          map (fun d => new_PyrightError d (contextOf w d 2))
              (generalDiagnostics output);
        summary := summary output |},
   tr ++ [Spawn (lit "pyright") (argsOf files options)] ++
   flat_map readsOf (generalDiagnostics output)).
Proof.
  intros pyright Hcode Hparse. unfold check, Async.bind at 1, Async.spawn.
  fold (argsOf files options). fold pyright.
  destruct (code pyright) as [[|p|p]|]; [now elim Hcode| | |];
    rewrite Hparse; unfold Async.tryCatch; unfold Async.bind at 1;
    rewrite all_contexts; unfold Async.ret; now rewrite <- app_assoc.
Qed.

Lemma check_on_unparsed (files : jsstring + list jsstring)
    (options : list jsstring) (w : World) (tr : list Event) :
  let pyright := run w (lit "pyright") (argsOf files options) in
  code pyright <> Some 0 ->
  JSON_parse (stdout pyright) = None ->
  check JSON_parse files options w tr =
  (Rejected
     (Error (lit "Failed to parse pyright output: " ++
             orElse (stderr pyright) (stdout pyright))),
   tr ++ [Spawn (lit "pyright") (argsOf files options)]).
Proof.
  intros pyright Hcode Hparse. unfold check, Async.bind at 1, Async.spawn.
  fold (argsOf files options). fold pyright.
  rewrite Hparse. unfold Async.tryCatch, Async.reject.
  destruct (code pyright) as [[|p|p]|]; try reflexivity.
  now elim Hcode.
Qed.

(** X12.  When the checker exits with a status other than 0 and its
    output does not parse, [check] rejects with an [Error] whose message
    is [Failed to parse pyright output: ] followed by what the checker
    wrote on its error stream, or, when that is empty, by what it wrote
    on its output stream: never by both.  No file is read. *)
Theorem check_parse_failure (files : jsstring + list jsstring)
    (options : list jsstring) (w : World) (tr : list Event) :
  let pyright := run w (lit "pyright") (argsOf files options) in
  code pyright <> Some 0 ->
  JSON_parse (stdout pyright) = None ->
  check JSON_parse files options w tr =
  (Rejected
     (Error (lit "Failed to parse pyright output: " ++
             match stderr pyright with
             | [] => stdout pyright
             | _ :: _ => stderr pyright
             end)),
   tr ++ [Spawn (lit "pyright") (argsOf files options)]).
Proof.
  intros pyright Hcode Hparse.
  rewrite (check_on_unparsed files options w tr Hcode Hparse).
  fold pyright. unfold orElse. now destruct (stderr pyright).
Qed.

(** X13.  When the output of the checker parses, [check] is fulfilled and
    the operations it issues are the start of the checker, with
    [--outputjson] first, then the options, then the files, followed by
    one read for every diagnostic that has a range, in the order of the
    list: a diagnostic without a range causes no read, and a file with
    several diagnostics is read once for each. *)
Theorem check_operations (files : jsstring + list jsstring)
    (options : list jsstring) (w : World) (tr : list Event)
    (output : PyrightOutput PyrightDiagnostic) :
  let pyright :=
    run w (lit "pyright") ([lit "--outputjson"] ++ options ++
                           fileList files) in
  code pyright <> Some 0 ->
  JSON_parse (stdout pyright) = Some output ->
  (exists result,
     fst (check JSON_parse files options w tr) = Fulfilled result) /\
  snd (check JSON_parse files options w tr) =
  tr ++
  [Spawn (lit "pyright")
     ([lit "--outputjson"] ++ options ++ fileList files)] ++
  flat_map (fun d => match d_range d with
                     | Some _ => [ReadFile (d_file d)]
                     | None => []
                     end)
           (generalDiagnostics output).
Proof.
  intros pyright Hcode Hparse.
  rewrite (check_on_parsed files options w tr output Hcode Hparse).
  split; [eexists; reflexivity | reflexivity].
Qed.

End CheckRuns.


(** ** [main] *)

Section MainRuns.

Context {K : Kleur}.
Variable JSON_parse : jsstring -> option (PyrightOutput PyrightDiagnostic).
Variable JSON_stringify : PyrightOutput PyrightError -> jsstring.

(** The loop over diagnostics that all format. *)
Lemma logDiagnostics_all (es : list PyrightError) (texts : list jsstring)
    (cl : Z) (console : list Cli.Console) :
  Forall2 (fun e text => formatError e cl = Normal text) es texts ->
  Cli.logDiagnostics es cl console =
  (console ++ map (fun text => Cli.ConsoleLog ([LF] ++ text)) texts, None).
Proof.
  intros H. revert console.
  induction H as [|e text es texts He _ IH]; intros console;
    cbn [Cli.logDiagnostics map].
  - now rewrite app_nil_r.
  - rewrite He, IH, <- app_assoc. reflexivity.
Qed.

(** The loop up to the first diagnostic that throws. *)
Lemma logDiagnostics_throw (pre post : list PyrightError) (e : PyrightError)
    (texts : list jsstring) (cl : Z) (console : list Cli.Console)
    (err : JsError) :
  Forall2 (fun e text => formatError e cl = Normal text) pre texts ->
  formatError e cl = Throw err ->
  Cli.logDiagnostics (pre ++ e :: post) cl console =
  (console ++ map (fun text => Cli.ConsoleLog ([LF] ++ text)) texts,
   Some err).
Proof.
  intros H Herr. revert console.
  induction H as [|e0 text es texts He _ IH]; intros console;
    cbn [Cli.logDiagnostics map app].
  - now rewrite Herr, app_nil_r.
  - rewrite He, IH, <- app_assoc. reflexivity.
Qed.

(** [main] after a [check] that is fulfilled. *)
Lemma main_fulfilled (args : Cli.PyrightArgs) (remaining : list jsstring)
    (w : World) (tr tr' : list Event)
    (result : PyrightOutput PyrightError) :
  Cli.help args = false ->
  check JSON_parse (inr remaining) [] w tr = (Fulfilled result, tr') ->
  Cli.main JSON_parse JSON_stringify args remaining w tr =
  match generalDiagnostics result with
  | [] =>
      ((debugLog JSON_stringify args result ++
        (if Cli.quiet args then []
         else [Cli.ConsoleLog (lit "No errors found!")]),
        Cli.Return), tr')
  | _ :: _ =>
      match Cli.logDiagnostics (generalDiagnostics result)
              (Cli.context args) (debugLog JSON_stringify args result) with
      | (console, Some e) =>
          ((console ++
            [Cli.ConsoleError (lit "Error running pyright:")
               (Cli.ThrownError e)], Cli.Exit 1), tr')
      | (console, None) =>
          ((console ++ [Cli.ConsoleLog []] ++
            (if Cli.showSummary args
             then [Cli.ConsoleLog
                     ([LF] ++ Cli.formatSummary (summary result))]
             else []),
            Cli.Exit 1), tr')
      end
  end.
Proof.
  intros Hhelp Hcheck. unfold Cli.main. rewrite Hhelp, Hcheck.
  fold (debugLog JSON_stringify args result).
  destruct (generalDiagnostics result) as [|e es].
  - cbn [List.length Z.of_nat Z.ltb Z.compare].
    destruct (Cli.quiet args); [now rewrite app_nil_r | reflexivity].
  - replace (0 <? Z.of_nat (List.length (e :: es))) with true
      by (symmetry; apply Z.ltb_lt; cbn [List.length]; lia).
    destruct (Cli.logDiagnostics _ _ _) as [console [err|]];
      [reflexivity|].
    destruct (Cli.showSummary args);
      [now rewrite <- app_assoc | now rewrite app_nil_r].
Qed.

(** [main] after a [check] that is rejected. *)
Lemma main_rejected (args : Cli.PyrightArgs) (remaining : list jsstring)
    (w : World) (tr tr' : list Event) (e : JsError) :
  Cli.help args = false ->
  check JSON_parse (inr remaining) [] w tr = (Rejected e, tr') ->
  Cli.main JSON_parse JSON_stringify args remaining w tr =
  (([Cli.ConsoleError (lit "Error running pyright:") (Cli.ThrownError e)],
    Cli.Exit 1), tr').
Proof.
  intros Hhelp Hcheck. unfold Cli.main. now rewrite Hhelp, Hcheck.
Qed.

(** X14.  How [main] ends, from its inputs: [--help] exits with 0 before
    anything else; otherwise [main] returns (and the process ends with
    status 0) when the checker exits with 0 or when its output parses and
    holds no diagnostic, whatever the status of the checker was; in every
    other case, diagnostics reported, formatting failed or output not
    parsed, it exits with 1. *)
Theorem main_exit_status (args : Cli.PyrightArgs) (remaining : list jsstring)
    (w : World) (tr : list Event) :
  let pyright :=
    run w (lit "pyright") ([lit "--outputjson"] ++ remaining) in
  snd (fst (Cli.main JSON_parse JSON_stringify args remaining w tr)) =
  if Cli.help args then Cli.Exit 0
  else
    match code pyright with
    | Some 0 => Cli.Return
    | _ =>
        match JSON_parse (stdout pyright) with
        | Some output =>
            match generalDiagnostics output with
            | [] => Cli.Return
            | _ :: _ => Cli.Exit 1
            end
        | None => Cli.Exit 1
        end
    end.
Proof.
  intros pyright.
  change ([lit "--outputjson"] ++ remaining)
    with (argsOf (inr remaining) []) in pyright.
  destruct (Cli.help args) eqn:Hhelp;
    [unfold Cli.main; now rewrite Hhelp|].
  assert (Hcases : code pyright = Some 0 \/ code pyright <> Some 0).
  { destruct (code pyright) as [[|p|p]|]; (now left) || (right; discriminate). }
  destruct Hcases as [Hzero|Hcode].
  - rewrite (main_fulfilled args remaining w tr _ _ Hhelp
               (check_on_exit_zero JSON_parse (inr remaining) [] w tr Hzero)).
    now rewrite Hzero.
  - replace (match code pyright with
             | Some 0 => Cli.Return
             | _ => match JSON_parse (stdout pyright) with
                    | Some output =>
                        match generalDiagnostics output with
                        | [] => Cli.Return
                        | _ :: _ => Cli.Exit 1
                        end
                    | None => Cli.Exit 1
                    end
             end)
      with (match JSON_parse (stdout pyright) with
            | Some output =>
                match generalDiagnostics output with
                | [] => Cli.Return
                | _ :: _ => Cli.Exit 1
                end
            | None => Cli.Exit 1
            end)
      by (destruct (code pyright) as [[|p|p]|]; congruence).
    destruct (JSON_parse (stdout pyright)) as [output|] eqn:Hparse.
    + rewrite (main_fulfilled args remaining w tr _ _ Hhelp
                 (check_on_parsed JSON_parse (inr remaining) [] w tr output
                    Hcode Hparse)).
      cbn [generalDiagnostics].
      destruct (generalDiagnostics output) as [|d ds]; [reflexivity|].
      cbn [map].
      destruct (Cli.logDiagnostics _ _ _) as [console [err|]]; reflexivity.
    + now rewrite (main_rejected args remaining w tr _ _ Hhelp
                     (check_on_unparsed JSON_parse (inr remaining) [] w tr
                        Hcode Hparse)).
Qed.

End MainRuns.

Section MainReports.

Context {K : Kleur}.
Variable JSON_parse : jsstring -> option (PyrightOutput PyrightDiagnostic).
Variable JSON_stringify : PyrightOutput PyrightError -> jsstring.

(** X15.  When the checker exits with status 0, [main] starts the checker
    and nothing else, logs the debug dump if asked, then [No errors found!]
    unless [--quiet] is given, and returns: with [--quiet] and without
    [--debug] nothing is printed at all. *)
Theorem main_clean_run (args : Cli.PyrightArgs) (remaining : list jsstring)
    (w : World) (tr : list Event) :
  Cli.help args = false ->
  code (run w (lit "pyright") ([lit "--outputjson"] ++ remaining)) =
    Some 0 ->
  Cli.main JSON_parse JSON_stringify args remaining w tr =
  (((if Cli.debug args
     then [Cli.ConsoleLog (JSON_stringify (emptyResult remaining))]
     else []) ++
    (if Cli.quiet args then []
     else [Cli.ConsoleLog (lit "No errors found!")]),
    Cli.Return),
   tr ++ [Spawn (lit "pyright") ([lit "--outputjson"] ++ remaining)]).
Proof.
  intros Hhelp Hcode.
  exact (main_fulfilled JSON_parse JSON_stringify args remaining w tr _ _
           Hhelp
           (check_on_exit_zero JSON_parse (inr remaining) [] w tr Hcode)).
Qed.

(** X16.  When the output of the checker parses into one diagnostic or
    more and each of them formats, [main] logs the debug dump if asked,
    then one report for each diagnostic, in the order of the list and each
    behind an empty line, then an empty line, then the summary if asked,
    and exits with 1. *)
Theorem main_reports_in_order (args : Cli.PyrightArgs)
    (remaining : list jsstring) (w : World) (tr : list Event)
    (output : PyrightOutput PyrightDiagnostic) (texts : list jsstring) :
  let pyright :=
    run w (lit "pyright") ([lit "--outputjson"] ++ remaining) in
  let result :=
    {| version := version output;
       time := time output;
       generalDiagnostics := map (wrap w) (generalDiagnostics output);
       summary := summary output |} in
  Cli.help args = false ->
  code pyright <> Some 0 ->
  JSON_parse (stdout pyright) = Some output ->
  generalDiagnostics output <> [] ->
  Forall2 (fun d text =>
             formatError (wrap w d) (Cli.context args) = Normal text)
          (generalDiagnostics output) texts ->
  fst (Cli.main JSON_parse JSON_stringify args remaining w tr) =
  ((if Cli.debug args then [Cli.ConsoleLog (JSON_stringify result)]
    else []) ++
   map (fun text => Cli.ConsoleLog ([LF] ++ text)) texts ++
   [Cli.ConsoleLog []] ++
   (if Cli.showSummary args
    then [Cli.ConsoleLog ([LF] ++ Cli.formatSummary (summary output))]
    else []),
   Cli.Exit 1).
Proof.
  intros pyright result Hhelp Hcode Hparse Hds Hall.
  rewrite (main_fulfilled JSON_parse JSON_stringify args remaining w tr _ _
             Hhelp
             (check_on_parsed JSON_parse (inr remaining) [] w tr output
                Hcode Hparse)).
  fold (wrap w). fold result.
  cbn [generalDiagnostics summary result].
  destruct (map (wrap w) (generalDiagnostics output)) as [|e es] eqn:E;
    [apply map_eq_nil in E; contradiction|].
  rewrite <- E.
  rewrite (logDiagnostics_all _ texts).
  - cbn [fst]. unfold debugLog. now rewrite <- !app_assoc.
  - clear -Hall. induction Hall; cbn [map]; constructor; assumption.
Qed.

(** X17.  When [formatError] throws on a diagnostic, [main] has logged the
    reports of the diagnostics before it, logs the exception on the error
    stream behind [Error running pyright:] and exits with 1: the
    diagnostics after it, the closing empty line and the summary are not
    printed. *)
Theorem main_stops_at_throw (args : Cli.PyrightArgs)
    (remaining : list jsstring) (w : World) (tr : list Event)
    (output : PyrightOutput PyrightDiagnostic)
    (pre post : list PyrightDiagnostic) (d : PyrightDiagnostic)
    (texts : list jsstring) (err : JsError) :
  let pyright :=
    run w (lit "pyright") ([lit "--outputjson"] ++ remaining) in
  let result :=
    {| version := version output;
       time := time output;
       generalDiagnostics := map (wrap w) (generalDiagnostics output);
       summary := summary output |} in
  Cli.help args = false ->
  code pyright <> Some 0 ->
  JSON_parse (stdout pyright) = Some output ->
  generalDiagnostics output = pre ++ d :: post ->
  Forall2 (fun d text =>
             formatError (wrap w d) (Cli.context args) = Normal text)
          pre texts ->
  formatError (wrap w d) (Cli.context args) = Throw err ->
  fst (Cli.main JSON_parse JSON_stringify args remaining w tr) =
  ((if Cli.debug args then [Cli.ConsoleLog (JSON_stringify result)]
    else []) ++
   map (fun text => Cli.ConsoleLog ([LF] ++ text)) texts ++
   [Cli.ConsoleError (lit "Error running pyright:") (Cli.ThrownError err)],
   Cli.Exit 1).
Proof.
  intros pyright result Hhelp Hcode Hparse Hds Hpre Hthrow.
  rewrite (main_fulfilled JSON_parse JSON_stringify args remaining w tr _ _
             Hhelp
             (check_on_parsed JSON_parse (inr remaining) [] w tr output
                Hcode Hparse)).
  fold (wrap w). fold result.
  cbn [generalDiagnostics summary result].
  rewrite Hds, map_app. cbn [map].
  destruct (map (wrap w) pre ++ wrap w d :: map (wrap w) post)
    as [|e es] eqn:E; [now destruct (map (wrap w) pre)|].
  rewrite <- E.
  rewrite (logDiagnostics_throw _ _ _ texts _ _ err).
  - cbn [fst]. unfold debugLog. now rewrite <- !app_assoc.
  - clear -Hpre. induction Hpre; cbn [map]; constructor; assumption.
  - exact Hthrow.
Qed.

(** X18.  When the checker exits with a status other than 0 and its
    output does not parse, [main] prints nothing on the output stream,
    not even the debug dump: it logs the error of [check] on the error
    stream and exits with 1, having started the checker and read no
    file. *)
Theorem main_parse_failure (args : Cli.PyrightArgs)
    (remaining : list jsstring) (w : World) (tr : list Event) :
  let pyright :=
    run w (lit "pyright") ([lit "--outputjson"] ++ remaining) in
  Cli.help args = false ->
  code pyright <> Some 0 ->
  JSON_parse (stdout pyright) = None ->
  Cli.main JSON_parse JSON_stringify args remaining w tr =
  (([Cli.ConsoleError (lit "Error running pyright:")
       (Cli.ThrownError
          (Error (lit "Failed to parse pyright output: " ++
                  match stderr pyright with
                  | [] => stdout pyright
                  | _ :: _ => stderr pyright
                  end)))],
    Cli.Exit 1),
   tr ++ [Spawn (lit "pyright") ([lit "--outputjson"] ++ remaining)]).
Proof.
  intros pyright Hhelp Hcode Hparse.
  rewrite (main_rejected JSON_parse JSON_stringify args remaining w tr _ _
             Hhelp
             (check_on_unparsed JSON_parse (inr remaining) [] w tr
                Hcode Hparse)).
  change (run w (lit "pyright") (argsOf (inr remaining) [])) with pyright.
  unfold orElse. now destruct (stderr pyright).
Qed.

End MainReports.

(** ** The further properties on the samples *)

Lemma report_without_indicator_witness :
  @formatErrorLines plain shortContextError 2 =
  Normal [lit "error a.py:6:1 " ++ [ARROW] ++ lit " reportGeneralTypeIssues";
          lit "    4 " ++ [BAR] ++ lit " x";
          lit " help ~ bad"].
Proof.
  exact (@report_without_indicator plain shortContextError 2 (span 5 0 5 3)
           eq_refl ltac:(discriminate) ltac:(right; simpl; lia)).
Defined.



Lemma import_cycle_line_count_witness :
  exists lines,
    @formatErrorLines plain cycleError 2 = Normal lines /\
    List.length lines = 4%nat.
Proof.
  exact (import_cycle_line_count plain cycleError 2 eq_refl eq_refl).
Defined.

Lemma formatError_throws_witness :
  exists msg,
    @formatError plain endColumnZeroDeep 2 = Throw (RangeError msg).
Proof.
  exact (@formatError_throws plain endColumnZeroDeep 2 (span 4 2 6 0)
           (lit "  c)") eq_refl ltac:(simpl; lia) ltac:(simpl; lia)
           ltac:(simpl; lia) eq_refl).
Defined.

Lemma context_length_bound_witness :
  Z.of_nat (List.length
              (contextOf (sampleWorld (numberedFile 20))
                 (sampleDiagnostic (Some (span 10 4 10 7))) 2)) <= 5.
Proof.
  exact (context_length_bound (sampleWorld (numberedFile 20))
           (sampleDiagnostic (Some (span 10 4 10 7))) 2 (span 10 4 10 7)
           eq_refl ltac:(lia) ltac:(simpl; lia) ltac:(simpl; lia)).
Defined.

Lemma context_lines_have_no_newline_witness :
  ~ In LF (lit "11").
Proof.
  apply (context_lines_have_no_newline (sampleWorld (numberedFile 20))
           (sampleDiagnostic (Some (span 10 4 10 7))) 2 (lit "11")).
  vm_compute. tauto.
Defined.

Lemma loaded_context_is_marked_witness :
  exists text,
    nth_error (split LF (numberedFile 6)) 1 = Some text /\
    @formatErrorLines plain
      (new_PyrightError (sampleDiagnostic (Some (span 1 2 1 5)))
         (contextOf (sampleWorld (numberedFile 6))
            (sampleDiagnostic (Some (span 1 2 1 5))) 2)) 2 =
    Normal [lit "error a.py:2:3 " ++ [ARROW] ++
              lit " reportGeneralTypeIssues";
            lit "    1 " ++ [BAR] ++ lit " 0";
            @numbered plain (span 1 2 1 5) 0 1 text;
            lit "      " ++ [BAR] ++ lit "   ^^^ reportGeneralTypeIssues";
            lit "    3 " ++ [BAR] ++ lit " 2";
            lit "    4 " ++ [BAR] ++ lit " 3";
            lit " help ~ bad"].
Proof.
  exact (proj2 (loaded_context_is_marked plain
                  (sampleWorld (numberedFile 6))
                  (sampleDiagnostic (Some (span 1 2 1 5))) 2 (span 1 2 1 5)
                  (numberedFile 6) eq_refl eq_refl eq_refl
                  ltac:(lia) ltac:(simpl; lia) ltac:(simpl; lia)
                  ltac:(vm_compute; reflexivity))).
Defined.

Lemma wider_context_loses_indicator_witness :
  @formatErrorLines plain
    (wrap (sampleWorld (numberedFile 20))
       (sampleDiagnostic (Some (span 10 4 10 7)))) 5 =
  Normal [lit "error a.py:11:5 " ++ [ARROW] ++
            lit " reportGeneralTypeIssues";
          lit "    6 " ++ [BAR] ++ lit " 8";
          lit "    7 " ++ [BAR] ++ lit " 9";
          lit "    8 " ++ [BAR] ++ lit " 10";
          lit "    9 " ++ [BAR] ++ lit " 11";
          lit "   10 " ++ [BAR] ++ lit " 12";
          lit " help ~ bad"].
Proof.
  exact (wider_context_loses_indicator plain
           (sampleWorld (numberedFile 20))
           (sampleDiagnostic (Some (span 10 4 10 7))) 5 (span 10 4 10 7)
           eq_refl eq_refl ltac:(simpl; lia)
           ltac:(vm_compute; discriminate)).
Defined.

Lemma check_parse_failure_witness :
  check sampleParse (inl (lit "a.py")) [] brokenWorld [] =
  (Rejected (Error (lit "Failed to parse pyright output: fatal")),
   [Spawn (lit "pyright") [lit "--outputjson"; lit "a.py"]]).
Proof.
  exact (check_parse_failure sampleParse (inl (lit "a.py")) [] brokenWorld
           [] ltac:(discriminate) eq_refl).
Defined.

Lemma check_operations_witness :
  snd (check sampleParse (inl (lit "a.py")) []
         (sampleWorld (numberedFile 6)) []) =
  [Spawn (lit "pyright") [lit "--outputjson"; lit "a.py"];
   ReadFile (lit "a.py")].
Proof.
  exact (proj2 (check_operations sampleParse (inl (lit "a.py")) []
                  (sampleWorld (numberedFile 6)) [] sampleOutput
                  ltac:(discriminate) eq_refl)).
Defined.

Lemma main_clean_run_witness :
  @Cli.main plain sampleParse sampleStringify noOptions
    [lit "a.py"; lit "b.py"] quietWorld [] =
  (([Cli.ConsoleLog (lit "No errors found!")], Cli.Return),
   [Spawn (lit "pyright") [lit "--outputjson"; lit "a.py"; lit "b.py"]]).
Proof.
  exact (@main_clean_run plain sampleParse sampleStringify noOptions
           [lit "a.py"; lit "b.py"] quietWorld [] eq_refl eq_refl).
Defined.

Lemma main_reports_in_order_witness :
  fst (@Cli.main plain sampleParse sampleStringify noOptions [lit "a.py"]
         (sampleWorld (numberedFile 6)) []) =
  ([Cli.ConsoleLog
      ([LF] ++
       join [LF]
         [lit "error a.py:2:3 " ++ [ARROW] ++
            lit " reportGeneralTypeIssues";
          lit "    1 " ++ [BAR] ++ lit " 0";
          lit ">   2 " ++ [BAR] ++ lit " 1";
          lit "      " ++ [BAR] ++ lit "   ^^^ reportGeneralTypeIssues";
          lit "    3 " ++ [BAR] ++ lit " 2";
          lit "    4 " ++ [BAR] ++ lit " 3";
          lit " help ~ bad"]);
    Cli.ConsoleLog
      ([LF] ++
       join [LF]
         [lit "error a.py " ++ [ARROW] ++ lit " reportGeneralTypeIssues";
          lit "     ^  bad";
          lit " help ~ reportGeneralTypeIssues";
          lit "---> reportGeneralTypeIssues needs custom handling"]);
    Cli.ConsoleLog []],
   Cli.Exit 1).
Proof.
  refine (@main_reports_in_order plain sampleParse sampleStringify noOptions
            [lit "a.py"] (sampleWorld (numberedFile 6)) [] sampleOutput
            [_; _] eq_refl ltac:(discriminate) eq_refl ltac:(discriminate)
            _).
  repeat constructor.
Defined.

Lemma main_stops_at_throw_witness :
  fst (@Cli.main plain throwingParse sampleStringify noOptions [lit "a.py"]
         (sampleWorld (numberedFile 6)) []) =
  ([Cli.ConsoleLog
      ([LF] ++
       join [LF]
         [lit "error a.py " ++ [ARROW] ++ lit " reportGeneralTypeIssues";
          lit "     ^  bad";
          lit " help ~ reportGeneralTypeIssues";
          lit "---> reportGeneralTypeIssues needs custom handling"]);
    Cli.ConsoleError (lit "Error running pyright:")
      (Cli.ThrownError (RangeError (lit "Invalid count value: -1")))],
   Cli.Exit 1).
Proof.
  refine (@main_stops_at_throw plain throwingParse sampleStringify noOptions
            [lit "a.py"] (sampleWorld (numberedFile 6)) [] throwingOutput
            [sampleDiagnostic None] [sampleDiagnostic (Some (span 1 2 1 5))]
            (sampleDiagnostic (Some (span 0 0 1 0))) [_] _
            eq_refl ltac:(discriminate) eq_refl eq_refl _ eq_refl).
  repeat constructor.
Defined.

Lemma main_parse_failure_witness :
  @Cli.main plain sampleParse sampleStringify noOptions [lit "a.py"]
    brokenWorld [] =
  (([Cli.ConsoleError (lit "Error running pyright:")
       (Cli.ThrownError
          (Error (lit "Failed to parse pyright output: fatal")))],
    Cli.Exit 1),
   [Spawn (lit "pyright") [lit "--outputjson"; lit "a.py"]]).
Proof.
  exact (@main_parse_failure plain sampleParse sampleStringify noOptions
           [lit "a.py"] brokenWorld [] eq_refl ltac:(discriminate) eq_refl).
Defined.
